(** * Pub-Grab: a shallow embedding of [pubgrab.py]

    The script resolves an author to a CRISTIN person identifier, fetches the
    author's publication records and renders them as an HTML reference list.

    Conventions of the embedding.
    - Python [str] is [string]: a sequence of code points below 256, so the
      Norwegian letters of the registry's names are single characters, as
      they are in Python.
    - The values that [json()] yields are the inductive [pyval]; a JSON
      object keeps its members in document order, as a Python dict does.
      JSON numbers with a fraction are not part of the embedding.
    - A computation ends in a value, in a raised exception, or leaves the
      fragment of Python that is modelled ([Unmodelled]: the [repr] of a
      container, the ordering of arrays, the capitals of a given name that
      is not a string).  Nothing is proved by way of [Unmodelled].
    - The registry is a function from URLs to replies; the requests a
      function issues are logged in order. *)

From Stdlib Require Import ZArith List Bool Ascii String Lia.
From Stdlib Require Import Permutation Sorted.
From Stdlib Require Import Numbers.DecimalString.
Import ListNotations.

Open Scope Z_scope.
Open Scope list_scope.
Open Scope string_scope.

(** ** Python values and outcomes *)

#[local] Set Warnings "-register-all".

Inductive pyval : Type :=
| PNone
| PBool (b : bool)
| PInt (n : Z)
| PStr (s : string)
| PList (l : list pyval)
| PDict (d : list (string * pyval)).

Inductive exn : Type :=
| KeyError
| TypeError
| ValueError
| IndexError
| AttributeError
| ConnectionError
| JSONDecodeError.

Inductive outcome (A : Type) : Type :=
| Ok (a : A)
| Raise (e : exn)
| Unmodelled.

Arguments Ok {A} a.
Arguments Raise {A} e.
Arguments Unmodelled {A}.

Definition bind {A B : Type} (m : outcome A) (k : A -> outcome B) : outcome B :=
  match m with
  | Ok a => k a
  | Raise e => Raise e
  | Unmodelled => Unmodelled
  end.

Notation "x <- m ;; k" := (bind m (fun x => k))
  (at level 61, m at next level, right associativity).

(** [try: m  except KeyError: dflt] *)
Definition except_KeyError {A : Type} (m : outcome A) (dflt : A) : outcome A :=
  match m with
  | Raise KeyError => Ok dflt
  | r => r
  end.

(** ** Dictionaries *)

Fixpoint assoc (k : string) (d : list (string * pyval)) : option pyval :=
  match d with
  | [] => None
  | (k', v) :: d' => if String.eqb k k' then Some v else assoc k d'
  end.

(** The members a dict iterates over: one per key, in order of first
    occurrence (a later binding of a key already seen is shadowed, as it is
    for [assoc]). *)
Fixpoint dict_items (d : list (string * pyval)) : list (string * pyval) :=
  match d with
  | [] => []
  | (k, v) :: d' =>
      (k, v) :: filter (fun kv => negb (String.eqb k (fst kv))) (dict_items d')
  end.

(** [v[k]] for a string key [k]. *)
Definition py_getitem (v : pyval) (k : string) : outcome pyval :=
  match v with
  | PDict d => match assoc k d with Some x => Ok x | None => Raise KeyError end
  | _ => Raise TypeError
  end.

(** [v[k1][k2]...] *)
Fixpoint py_path (v : pyval) (ks : list string) : outcome pyval :=
  match ks with
  | [] => Ok v
  | k :: ks' => x <- py_getitem v k ;; py_path x ks'
  end.

(** [v[0]] *)
Definition py_getitem0 (v : pyval) : outcome pyval :=
  match v with
  | PList (x :: _) => Ok x
  | PList [] => Raise IndexError
  | PStr (String c _) => Ok (PStr (String c EmptyString))
  | PStr EmptyString => Raise IndexError
  | PDict _ => Raise KeyError
  | _ => Raise TypeError
  end.

(** Truth value of [v] in [if v:]. *)
Definition py_truthy (v : pyval) : bool :=
  match v with
  | PNone => false
  | PBool b => b
  | PInt n => negb (Z.eqb n 0)
  | PStr s => negb (String.eqb s "")
  | PList l => match l with [] => false | _ => true end
  | PDict d => match d with [] => false | _ => true end
  end.

(** [.items()] *)
Definition py_items (v : pyval) : outcome (list (string * pyval)) :=
  match v with
  | PDict d => Ok (dict_items d)
  | _ => Raise AttributeError
  end.

(** The elements a [for] loop (or [sorted]) draws from [v]. *)
Definition py_iter (v : pyval) : outcome (list pyval) :=
  match v with
  | PList l => Ok l
  | PDict d => Ok (map (fun kv => PStr (fst kv)) (dict_items d))
  | PStr s => Ok (map (fun c => PStr (String c EmptyString)) (list_ascii_of_string s))
  | _ => Raise TypeError
  end.

(** [s + v] for a string [s]; also [v + s]: both need [v] to be a string. *)
Definition py_str_add (s : string) (v : pyval) : outcome string :=
  match v with
  | PStr t => Ok (s ++ t)
  | _ => Raise TypeError
  end.

Definition py_add_str (v : pyval) (s : string) : outcome string :=
  match v with
  | PStr t => Ok (t ++ s)
  | _ => Raise TypeError
  end.

(** ** [int(...)] and [str(...)] *)

Definition code (c : ascii) : nat := nat_of_ascii c.

Definition between (lo hi n : nat) : bool := (Nat.leb lo n && Nat.leb n hi)%bool.

(** The whitespace that [int] skips around a number: TAB..CR and the
    space, and of the characters beyond ASCII NEL and NBSP.  (FS..US are
    whitespace to [str.strip] but not to [int].) *)
Definition is_space (c : ascii) : bool :=
  (between 9 13 (code c) || Nat.eqb (code c) 32
   || Nat.eqb (code c) 133 || Nat.eqb (code c) 160)%bool.

Definition is_digit (c : ascii) : bool := between 48 57 (code c).

Definition digit_value (c : ascii) : Z := Z.of_nat (code c) - 48.

Fixpoint lstrip (l : list ascii) : list ascii :=
  match l with
  | c :: l' => if is_space c then lstrip l' else l
  | [] => []
  end.

Definition strip (l : list ascii) : list ascii := rev (lstrip (rev (lstrip l))).

(** Decimal digits, a single underscore allowed between two digits. *)
Fixpoint digits_value (acc : Z) (after_underscore : bool) (l : list ascii) : option Z :=
  match l with
  | [] => if after_underscore then None else Some acc
  | c :: l' =>
      if is_digit c then digits_value (10 * acc + digit_value c) false l'
      else if (Ascii.eqb c "_" && negb after_underscore)%bool
           then digits_value acc true l'
           else None
  end.

Definition unsigned_value (l : list ascii) : option Z :=
  match l with
  | c :: l' => if is_digit c then digits_value (digit_value c) false l' else None
  | [] => None
  end.

(** CPython's default cap on the digits of a conversion between [int] and
    [str] ([sys.int_info.default_max_str_digits]). *)
Definition int_max_str_digits : nat := 4300.

Definition count_digits (l : list ascii) : nat := List.length (filter is_digit l).

(** [int(s)] for a string: surrounding whitespace, an optional sign, digits;
    more digits than the cap are refused like any other text. *)
Definition int_of_str (s : string) : option Z :=
  let l := strip (list_ascii_of_string s) in
  if Nat.leb (count_digits l) int_max_str_digits then
    match l with
    | c :: l' =>
        if Ascii.eqb c "-" then option_map Z.opp (unsigned_value l')
        else if Ascii.eqb c "+" then unsigned_value l'
        else unsigned_value (c :: l')
    | [] => None
    end
  else None.

Definition py_int (v : pyval) : outcome Z :=
  match v with
  | PInt n => Ok n
  | PBool b => Ok (if b then 1 else 0)
  | PStr s => match int_of_str s with Some n => Ok n | None => Raise ValueError end
  | _ => Raise TypeError
  end.

Definition str_of_int (n : Z) : string := NilZero.string_of_int (Z.to_int n).

(** [str(v)]; an integer of more digits than the cap raises. *)
Definition py_str (v : pyval) : outcome string :=
  match v with
  | PNone => Ok "None"
  | PBool b => Ok (if b then "True" else "False")
  | PInt n =>
      if Nat.leb (String.length (str_of_int (Z.abs n))) int_max_str_digits
      then Ok (str_of_int n)
      else Raise ValueError
  | PStr s => Ok s
  | PList _ | PDict _ => Unmodelled
  end.

(** ** [urllib.parse.urlencode] *)

Definition hex_digit (n : nat) : ascii :=
  ascii_of_nat (if Nat.ltb n 10 then 48 + n else 55 + n).

Definition percent (n : nat) : string :=
  String "%" (String (hex_digit (Nat.div n 16)) (String (hex_digit (Nat.modulo n 16)) "")).

(** Bytes of the UTF-8 encoding of a code point below 256. *)
Definition utf8 (c : ascii) : list nat :=
  let n := code c in
  if Nat.ltb n 128 then [n] else [(192 + Nat.div n 64)%nat; (128 + Nat.modulo n 64)%nat].

(** Letters, digits and [_.-~] are never quoted. *)
Definition always_safe (n : nat) : bool :=
  (between 65 90 n || between 97 122 n || between 48 57 n
   || Nat.eqb n 95 || Nat.eqb n 46 || Nat.eqb n 45 || Nat.eqb n 126)%bool.

Definition quote_byte (n : nat) : string :=
  if always_safe n then String (ascii_of_nat n) ""
  else if Nat.eqb n 32 then "+"
  else percent n.

Fixpoint quote_plus (s : string) : string :=
  match s with
  | EmptyString => ""
  | String c s' => String.concat "" (map quote_byte (utf8 c)) ++ quote_plus s'
  end.

Fixpoint urlencode_pairs (query : list (string * pyval)) : outcome (list string) :=
  match query with
  | [] => Ok []
  | (k, v) :: query' =>
      s <- py_str v ;;
      rest <- urlencode_pairs query' ;;
      Ok ((quote_plus k ++ "=" ++ quote_plus s) :: rest)
  end.

Definition urlencode (query : list (string * pyval)) : outcome string :=
  l <- urlencode_pairs query ;; Ok (String.concat "&" l).

(** ** The registry *)

(** What a GET yields: no response at all, or a status with a body that
    parses as JSON ([Some]) or does not ([None]). *)
Inductive reply : Type :=
| Unreachable
| Reply (status : Z) (body : option pyval).

Definition network : Type := string -> reply.

(** [requests.get(url).json()]: the status is not looked at. *)
Definition requests_get_json (net : network) (url : string) : outcome pyval :=
  match net url with
  | Unreachable => Raise ConnectionError
  | Reply _ None => Raise JSONDecodeError
  | Reply _ (Some v) => Ok v
  end.

(** A computation that may issue requests: the URLs requested, in order,
    and how it ended. *)
Definition io (A : Type) : Type := network -> list string * outcome A.

Definition io_ret {A : Type} (r : outcome A) : io A := fun _ => ([], r).

Definition io_bind {A B : Type} (m : io A) (k : A -> io B) : io B :=
  fun net =>
    match m net with
    | (t, Ok a) => let (t', r) := k a net in ((t ++ t')%list, r)
    | (t, Raise e) => (t, Raise e)
    | (t, Unmodelled) => (t, Unmodelled)
    end.

Definition get_json (url : string) : io pyval :=
  fun net => ([url], requests_get_json net url).

Notation "x <~ m ;; k" := (io_bind m (fun x => k))
  (at level 61, m at next level, right associativity).

(** ** [cristin_person_id] *)

Definition cristin_person_id (author : pyval) : io pyval :=
  match py_int author with
  | Ok n => io_ret (Ok (PInt n))
  | Raise ValueError =>
      let base := "https://api.cristin.no/v1/persons?" in
      q <~ io_ret (urlencode [("name", author)]) ;;
      let url := base ++ q in
      person <~ get_json url ;;
      if py_truthy person
      then io_ret (p0 <- py_getitem0 person ;; py_getitem p0 "cristin_person_id")
      else io_ret (Ok PNone)
  | Raise e => io_ret (Raise e)
  | Unmodelled => io_ret Unmodelled
  end.

(** ** [pubs_by] *)

Definition pubs_url (cpid fra til hovedkategori : pyval) : outcome string :=
  let base := "http://www.cristin.no/ws/hentVarbeiderPerson?" in
  q <- urlencode [("lopenr", cpid); ("fra", fra); ("til", til);
                  ("hovedkategori", hovedkategori); ("format", PStr "json")] ;;
  Ok (base ++ q).

Definition pubs_by (author fra til hovedkategori : pyval) : io pyval :=
  cpid <~ cristin_person_id author ;;
  url <~ io_ret (pubs_url cpid fra til hovedkategori) ;;
  pubs <~ get_json url ;;
  io_ret (Ok pubs).

(** The defaults of [pubs_by]. *)
Definition fra_default : pyval := PStr "".
Definition til_default : pyval := PStr "".
Definition hovedkategori_default : pyval := PStr "TIDSSKRIFTPUBL".

(** ** [citation]: a docstring and nothing else, so the call yields [None]. *)
Definition citation (pub : pyval) : outcome pyval := Ok PNone.

(** ** The [__main__] block: author rendering *)

(** [c.isupper()] for one character: A-Z and the capital letters of the
    Latin-1 supplement (all of C0..DE but the multiplication sign). *)
Definition isupper (c : ascii) : bool :=
  (between 65 90 (code c) || between 192 214 (code c) || between 216 222 (code c))%bool.

(** [''.join(c for c in Short_firstname if c.isupper())] *)
Definition Uppercase_firstname (Short_firstname : pyval) : outcome string :=
  match Short_firstname with
  | PStr s => Ok (string_of_list_ascii (filter isupper (list_ascii_of_string s)))
  | PList _ | PDict _ => Unmodelled
  | _ => Raise TypeError
  end.

(** [k['etternavn'] + ' ' + Uppercase_firstname], the given name read first. *)
Definition author_name (k : pyval) : outcome string :=
  Short_firstname <- py_getitem k "fornavn" ;;
  Upper <- Uppercase_firstname Short_firstname ;;
  etternavn <- py_getitem k "etternavn" ;;
  surname_sp <- py_add_str etternavn " " ;;
  Ok (surname_sp ++ Upper).

(** The loop over a list of persons, [authors] being the string so far. *)
Fixpoint authors_loop (persons : list pyval) (authors : string) : outcome string :=
  match persons with
  | [] => Ok authors
  | k :: rest =>
      name <- author_name k ;;
      authors_loop rest (authors ++ (name ++ ", "))
  end.

(** [authors[:-2]] *)
Definition drop_last2 (s : string) : string :=
  substring 0 (String.length s - 2) s.

Definition authors_of (i : pyval) : outcome string :=
  person <- py_path i ["fellesdata"; "person"] ;;
  match person with
  | PList l => authors <- authors_loop l "" ;; Ok (drop_last2 authors)
  | PDict _ => author_name person
  | _ => Ok ""
  end.

(** ** The [__main__] block: one citation *)

Definition article : list string := ["kategoridata"; "tidsskriftsartikkel"].

Definition HTML_string (i : pyval) (authors : string) : outcome string :=
  tittel <- py_path i ["fellesdata"; "tittel"] ;;
  year <- py_path i ["fellesdata"; "ar"] ;;
  navn <- py_path i (article ++ ["tidsskrift"; "navn"])%list ;;
  journal0 <- py_str_add "<em>" navn ;;
  let journal := journal0 ++ "</em>" in
  articlenr <- except_KeyError (py_path i (article ++ ["artikkelnr"])%list) (PStr "") ;;
  volum <- except_KeyError
             (v <- py_path i (article ++ ["volum"])%list ;;
              s <- py_str_add "<strong>(" v ;; Ok (s ++ ")</strong>")) "" ;;
  DOI <- except_KeyError
           (d <- py_path i (article ++ ["doi"])%list ;;
            py_str_add "http://dx.doi.org/" d) "" ;;
  s1 <- py_str_add ("<p> " ++ authors ++ " (") year ;;
  s2 <- py_str_add (s1 ++ "). ") tittel ;;
  s3 <- py_str_add (s2 ++ " " ++ journal ++ " " ++ volum ++ " ") articlenr ;;
  Ok (s3 ++ " " ++ DOI ++ "</p>").

(** The loop over the categories of record [i]. *)
Fixpoint categories_loop (i : pyval) (authors : string)
    (items : list (string * pyval)) (html_codes_all : list string)
    : outcome (list string) :=
  match items with
  | [] => Ok html_codes_all
  | (key, value) :: rest =>
      if String.eqb key "tidsskriftsartikkel" then
        h <- HTML_string i authors ;;
        categories_loop i authors rest (html_codes_all ++ [h])%list
      else categories_loop i authors rest html_codes_all
  end.

(** The body of [for i in data_sort]. *)
Definition format_record (i : pyval) (html_codes_all : list string)
    : outcome (list string) :=
  authors <- authors_of i ;;
  kategoridata <- py_getitem i "kategoridata" ;;
  items <- py_items kategoridata ;;
  categories_loop i authors items html_codes_all.

Fixpoint format_loop (data_sort : list pyval) (html_codes_all : list string)
    : outcome (list string) :=
  match data_sort with
  | [] => Ok html_codes_all
  | i :: rest =>
      html_codes_all' <- format_record i html_codes_all ;;
      format_loop rest html_codes_all'
  end.

(** ** The [__main__] block: sorting *)

Section Sorted.
Context {K : Type} (ltb : K -> K -> bool).

(** [x] goes in front of the first element whose key is not greater. *)
Fixpoint insert_desc (x : K * pyval) (l : list (K * pyval)) : list (K * pyval) :=
  match l with
  | [] => [x]
  | y :: l' => if ltb (fst x) (fst y) then y :: insert_desc x l' else x :: l
  end.

(** [sorted(..., reverse=True)] on decorated items: descending keys, equal
    keys in their original order. *)
Definition sorted_desc (l : list (K * pyval)) : list (K * pyval) :=
  fold_right insert_desc [] l.

(** [a] may stand before [b]: its key is not smaller. *)
Definition not_below (a b : K * pyval) : Prop := ltb (fst a) (fst b) = false.

(** Each item with its key, as [sorted] holds them while it sorts. *)
Definition decorate (key : pyval -> K) (l : list pyval) : list (K * pyval) :=
  map (fun k => (key k, k)) l.

(** Sorting by a key that every item has. *)
Definition sort_by (key : pyval -> K) (records : list pyval) : list pyval :=
  map snd (sorted_desc (decorate key records)).
End Sorted.

Arguments decorate {K} key l.

Definition as_str (v : pyval) : option string :=
  match v with PStr s => Some s | _ => None end.

Definition as_num (v : pyval) : option Z :=
  match v with
  | PInt n => Some n
  | PBool b => Some (if b then 1 else 0)
  | _ => None
  end.

Definition is_list (v : pyval) : bool :=
  match v with PList _ => true | _ => false end.

Fixpoint all_some {A B : Type} (f : A -> option B) (l : list A) : option (list B) :=
  match l with
  | [] => Some []
  | x :: l' =>
      match f x, all_some f l' with
      | Some y, Some ys => Some (y :: ys)
      | _, _ => None
      end
  end.

Fixpoint map_outcome {A B : Type} (f : A -> outcome B) (l : list A) : outcome (list B) :=
  match l with
  | [] => Ok []
  | x :: l' => y <- f x ;; ys <- map_outcome f l' ;; Ok (y :: ys)
  end.

(** [sorted(items, key=..., reverse=True)] once the keys are computed.
    Strings compare by code point, numbers by value; fewer than two items
    are never compared; anything else cannot be ordered. *)
Definition py_sorted_reverse (keys items : list pyval) : outcome (list pyval) :=
  if (List.length items <? 2)%nat then Ok items
  else
    match all_some as_str keys with
    | Some ks => Ok (map snd (sorted_desc String.ltb (combine ks items)))
    | None =>
        match all_some as_num keys with
        | Some ks => Ok (map snd (sorted_desc Z.ltb (combine ks items)))
        | None => if existsb is_list keys then Unmodelled else Raise TypeError
        end
    end.

Definition data_sort (data : pyval) : outcome (list pyval) :=
  forskningsresultat <- py_getitem data "forskningsresultat" ;;
  items <- py_iter forskningsresultat ;;
  keys <- map_outcome (fun k => py_path k ["fellesdata"; "ar"]) items ;;
  py_sorted_reverse keys items.

(** ** The [__main__] block: the document *)

Definition nl : string := String (ascii_of_nat 10) "".
Definition tab : string := String (ascii_of_nat 9) "".
Definition dquote : string := String (ascii_of_nat 34) "".

Definition html_str_start : string :=
  String.concat nl
    [ "";
      "    <!DOCTYPE html>";
      "    <HTML>";
      "        <head>";
      "            <meta charset=" ++ dquote ++ "utf-8" ++ dquote ++ ">";
      "        </head>";
      "";
      "        <body>";
      "            <h1>References</h1>";
      "    " ].

Definition html_str_end : string :=
  String.concat nl [ ""; "        </body>"; "    </HTML>"; "    " ].

(** What is written to the file, in order. *)
Definition document (html_codes_all : list string) : string :=
  html_str_start
  ++ String.concat "" (map (fun i => tab ++ tab ++ i ++ nl) html_codes_all)
  ++ html_str_end.

Definition name_of_user : string := "Jon Olav Vik".

(** From the fetched document to the list of citations. *)
Definition html_codes_of (data : pyval) : outcome (list string) :=
  sorted <- data_sort data ;;
  format_loop sorted [].

(** The whole block: the name of the file and its contents.  (Writing the
    file is taken to succeed.) *)
Definition main : io (string * string) :=
  data <~ pubs_by (PStr name_of_user) fra_default til_default hovedkategori_default ;;
  html_codes_all <~ io_ret (html_codes_of data) ;;
  io_ret (Ok (name_of_user ++ ".html", document html_codes_all)).

(** ** Sample data *)

(** Two letters beyond ASCII: a with ring (U+00E5) and capital o with
    stroke (U+00D8). *)
Definition A_ring : ascii := ascii_of_nat 229.
Definition O_slash : ascii := ascii_of_nat 216.

Definition person (etternavn fornavn : string) : pyval :=
  PDict [("etternavn", PStr etternavn); ("fornavn", PStr fornavn)].

Definition rec_2014 : pyval :=
  PDict [("fellesdata",
          PDict [("ar", PStr "2014"); ("id", PStr "1161735");
                 ("person", PList [person "Nordb" "Oyvind"; person "Vik" "Jon Olav"]);
                 ("tittel", PStr "T")]);
         ("kategoridata",
          PDict [("tidsskriftsartikkel",
                  PDict [("doi", PStr "10.1/x");
                         ("tidsskrift", PDict [("id", PStr "18057"); ("navn", PStr "J")]);
                         ("volum", PStr "53")])])].

(** A journal article with an article number and a DOI and no volume. *)
Definition rec_no_volum : pyval :=
  PDict [("fellesdata",
          PDict [("ar", PStr "2010"); ("id", PStr "769189");
                 ("person", person "Gjuvsland" "Arne Bjorke");
                 ("tittel", PStr "T")]);
         ("kategoridata",
          PDict [("tidsskriftsartikkel",
                  PDict [("artikkelnr", PStr "e9379");
                         ("doi", PStr "10.1/x");
                         ("tidsskrift", PDict [("navn", PStr "J")])])])].

(** A journal article whose common data has no title. *)
Definition rec_no_tittel : pyval :=
  PDict [("fellesdata",
          PDict [("ar", PStr "2010"); ("id", PStr "771116");
                 ("person", person "Gjuvsland" "Arne Bjorke")]);
         ("kategoridata",
          PDict [("tidsskriftsartikkel",
                  PDict [("doi", PStr "10.1/y");
                         ("tidsskrift", PDict [("navn", PStr "J")]);
                         ("volum", PStr "24")])])].

(** A lecture: a category the main block does not know. *)
Definition rec_foredrag : pyval :=
  PDict [("fellesdata",
          PDict [("ar", PStr "2012"); ("id", PStr "900001");
                 ("person", person "Vik" "Jon Olav");
                 ("tittel", PStr "L")]);
         ("kategoridata", PDict [("foredragPoster", PDict [])])].

Definition results (records : list pyval) : pyval :=
  PDict [("forskningsresultat", PList records)].

(** The registry as the docstrings show it: one known author with one
    journal article. *)
Definition net_vik : network := fun url =>
  if String.eqb url "https://api.cristin.no/v1/persons?name=Jon+Olav+Vik"
  then Reply 200 (Some (PList [PDict [("cristin_person_id", PInt 22311)]]))
  else if String.eqb url "https://api.cristin.no/v1/persons?name=Does+not+exist"
  then Reply 200 (Some (PList []))
  else if String.eqb url "http://www.cristin.no/ws/hentVarbeiderPerson?lopenr=22311&fra=&til=&hovedkategori=TIDSSKRIFTPUBL&format=json"
  then Reply 200 (Some (PDict [("forskningsresultat", PList [rec_2014])]))
  else Unreachable.

(** A registry that knows nobody and answers every other request with a
    server error whose body is JSON. *)
Definition net_500 : network := fun url =>
  if String.eqb url "https://api.cristin.no/v1/persons?name=Jon+Olav+Vik"
  then Reply 200 (Some (PList []))
  else Reply 500 (Some (PDict [("forskningsresultat", PList [])])).

(** The known author with two records, the second without a title. *)
Definition net_malformed : network := fun url =>
  if String.eqb url "https://api.cristin.no/v1/persons?name=Jon+Olav+Vik"
  then Reply 200 (Some (PList [PDict [("cristin_person_id", PInt 22311)]]))
  else if String.eqb url "http://www.cristin.no/ws/hentVarbeiderPerson?lopenr=22311&fra=&til=&hovedkategori=TIDSSKRIFTPUBL&format=json"
  then Reply 200 (Some (results [rec_2014; rec_no_tittel]))
  else Unreachable.

(** The publication request for the person [None], defaults otherwise. *)
Definition pubs_url_None : string :=
  "http://www.cristin.no/ws/hentVarbeiderPerson?lopenr=None&fra=&til=&hovedkategori=TIDSSKRIFTPUBL&format=json".

(** A record that has authors and nothing else. *)
Definition with_person (p : pyval) : pyval :=
  PDict [("fellesdata", PDict [("person", p)])].

(** The URL of the name search for [name]. *)
Definition persons_url (name : string) : string :=
  "https://api.cristin.no/v1/persons?" ++ "name=" ++ quote_plus name.

(** ** The author list as the specification words it *)

Definition uppercase_letters (given : string) : string :=
  string_of_list_ascii (filter isupper (list_ascii_of_string given)).

(** An author as a pair of surname and given name. *)
Definition render_author (a : string * string) : string :=
  fst a ++ " " ++ uppercase_letters (snd a).

Definition author_list (names : list (string * string)) : string :=
  String.concat ", " (map render_author names).

(** [k] is an author entry with surname [fst a] and given name [snd a]. *)
Definition is_author (k : pyval) (a : string * string) : Prop :=
  py_getitem k "etternavn" = Ok (PStr (fst a)) /\
  py_getitem k "fornavn" = Ok (PStr (snd a)).

(** ** The citation as the specification words it *)

Definition volume_markup (volum : option string) : string :=
  match volum with
  | Some v => "<strong>(" ++ v ++ ")</strong>"
  | None => ""
  end.

Definition doi_markup (doi : option string) : string :=
  match doi with
  | Some d => "http://dx.doi.org/" ++ d
  | None => ""
  end.

Definition or_empty (field : option string) : string :=
  match field with
  | Some a => a
  | None => ""
  end.

(** The fields in their fixed order, a single space after each of title,
    journal, volume and article number. *)
Definition citation_text (authors year tittel journal : string)
    (volum articlenr doi : option string) : string :=
  "<p> " ++ authors ++ " (" ++ year ++ "). " ++ tittel ++ " "
  ++ "<em>" ++ journal ++ "</em>" ++ " "
  ++ volume_markup volum ++ " "
  ++ or_empty articlenr ++ " "
  ++ doi_markup doi ++ "</p>".

(** The optional field [key] of the journal article of record [i]: a string
    when present, a [KeyError] when absent. *)
Definition article_field (i : pyval) (key : string) (field : option string) : Prop :=
  py_path i (article ++ [key])%list =
  match field with
  | Some s => Ok (PStr s)
  | None => Raise KeyError
  end.


(** [sub] occurs in [s]. *)
Definition occurs (sub s : string) : bool :=
  match String.index 0 sub s with
  | Some _ => true
  | None => false
  end.

(** ** Years, as the sort sees them and as numbers *)

(** The sort key of the main block: [k['fellesdata']['ar']]. *)
Definition year_of (k : pyval) : outcome pyval := py_path k ["fellesdata"; "ar"].

(** The year of a record whose year is a string (empty otherwise). *)
Definition year_str (k : pyval) : string :=
  match year_of k with
  | Ok (PStr y) => y
  | _ => ""
  end.

Definition has_str_year (k : pyval) : Prop := exists y, year_of k = Ok (PStr y).


Fixpoint all_digits (s : string) : bool :=
  match s with
  | EmptyString => true
  | String c s' => (is_digit c && all_digits s')%bool
  end.

Fixpoint number_from (acc : Z) (s : string) : Z :=
  match s with
  | EmptyString => acc
  | String c s' => number_from (10 * acc + digit_value c) s'
  end.

(** The number a string of decimal digits denotes. *)
Definition decimal_value (s : string) : Z := number_from 0 s.

(** Records by descending number of the year, equal years in their
    original order: the order the specification has in mind. *)
Definition sort_by_decimal_valueber (records : list pyval) : list pyval :=
  map snd (sorted_desc Z.ltb (decorate (fun k => decimal_value (year_str k)) records)).

(** The year of record [k] is a string of [n] decimal digits. *)
Definition digit_year (n : nat) (k : pyval) : Prop :=
  exists y, year_of k = Ok (PStr y) /\ all_digits y = true /\ String.length y = n.

(** A record that has a year and nothing else. *)
Definition year_rec (y : string) : pyval :=
  PDict [("fellesdata", PDict [("ar", PStr y)])].

Fixpoint repeat_char (c : ascii) (n : nat) : string :=
  match n with
  | O => ""
  | S n' => String c (repeat_char c n')
  end.

(** ** Notions for the further properties *)

(** How often the character [c] occurs in [s]. *)
Fixpoint count_char (c : ascii) (s : string) : nat :=
  match s with
  | EmptyString => O
  | String x s' => ((if Ascii.eqb c x then 1 else 0) + count_char c s')%nat
  end.

Fixpoint all_chars (p : ascii -> bool) (s : string) : bool :=
  match s with
  | EmptyString => true
  | String x s' => (p x && all_chars p s')%bool
  end.

(** The characters quoting can produce: unreserved ones, the plus for a
    space and the percent sign of an escape. *)
Definition url_char (c : ascii) : bool :=
  (always_safe (code c) || Ascii.eqb c "+" || Ascii.eqb c "%")%bool.

(** The year of a record whose year is a JSON integer (zero otherwise). *)
Definition year_int (k : pyval) : Z :=
  match year_of k with
  | Ok (PInt n) => n
  | _ => 0
  end.

Definition has_int_year (k : pyval) : Prop := exists n, year_of k = Ok (PInt n).

(** A citation as it is written to the file. *)
Definition written (i : string) : string := tab ++ tab ++ i ++ nl.

(** The URL of the publication listing, once its four values are strings. *)
Definition listing_url (lopenr fra til hovedkategori : string) : string :=
  "http://www.cristin.no/ws/hentVarbeiderPerson?"
  ++ "lopenr=" ++ quote_plus lopenr
  ++ "&" ++ "fra=" ++ quote_plus fra
  ++ "&" ++ "til=" ++ quote_plus til
  ++ "&" ++ "hovedkategori=" ++ quote_plus hovedkategori
  ++ "&" ++ "format=json".

(** The value of a hexadecimal digit as [percent] writes it. *)
Definition hex_value (c : ascii) : nat :=
  if Nat.ltb (code c) 58 then (code c - 48)%nat else (code c - 55)%nat.

(** The bytes a quoted string stands for. *)
Fixpoint unquote_bytes (s : string) : list nat :=
  match s with
  | EmptyString => []
  | String c s' =>
      if Ascii.eqb c "+" then 32%nat :: unquote_bytes s'
      else if Ascii.eqb c "%" then
        match s' with
        | String a (String b s'') =>
            (16 * hex_value a + hex_value b)%nat :: unquote_bytes s''
        | _ => []
        end
      else code c :: unquote_bytes s'
  end.

(** The code points below 256 that a list of UTF-8 bytes encodes. *)
Fixpoint utf8_decode (l : list nat) : string :=
  match l with
  | [] => ""
  | b :: l' =>
      if Nat.ltb b 128 then String (ascii_of_nat b) (utf8_decode l')
      else
        match l' with
        | b' :: l'' =>
            String (ascii_of_nat ((b - 192) * 64 + (b' - 128))) (utf8_decode l'')
        | [] => ""
        end
  end.

(** The UTF-8 bytes of a string. *)
Definition utf8_bytes (s : string) : list nat :=
  flat_map utf8 (list_ascii_of_string s).

(** The sort key of a record that has one ([None] otherwise). *)
Definition year_key (k : pyval) : pyval :=
  match year_of k with
  | Ok v => v
  | _ => PNone
  end.

(** The lines of the citations, one after the other. *)
Definition written_all (html_codes_all : list string) : string :=
  String.concat "" (map (fun i => tab ++ tab ++ i ++ nl) html_codes_all).

(** ** Further sample data *)

Definition net_null : network := fun _ => Reply 404 (Some (PDict [])).

Definition net_odd : network := fun url =>
  if String.eqb url (persons_url "A")
  then Reply 200 (Some (PList [PDict [("id", PInt 1)]]))
  else if String.eqb url (persons_url "B")
  then Reply 200 (Some (PDict [("message", PStr "x")]))
  else Reply 200 (Some (PList [PStr "22311"])).

(** What one character becomes. *)
Definition quote_char (c : ascii) : string :=
  String.concat "" (map quote_byte (utf8 c)).

Definition rec_bad_author : pyval :=
  PDict [("fellesdata",
          PDict [("ar", PStr "2012");
                 ("person", PList [person "Vik" "Jon Olav";
                                   PDict [("etternavn", PStr "Omholt")]]);
                 ("tittel", PStr "L")]);
         ("kategoridata", PDict [("foredragPoster", PDict [])])].

Definition rec_no_journal : pyval :=
  PDict [("fellesdata",
          PDict [("ar", PStr "2011"); ("person", person "Vik" "Jon Olav");
                 ("tittel", PStr "T")]);
         ("kategoridata",
          PDict [("tidsskriftsartikkel", PDict [("volum", PStr "7")])])].

Definition rec_volum_53 : pyval :=
  PDict [("fellesdata",
          PDict [("ar", PStr "2014"); ("person", person "Vik" "Jon Olav");
                 ("tittel", PStr "T")]);
         ("kategoridata",
          PDict [("tidsskriftsartikkel",
                  PDict [("tidsskrift", PDict [("navn", PStr "J")]);
                         ("volum", PInt 53)])])].

Definition rec_year_int : pyval :=
  PDict [("fellesdata",
          PDict [("ar", PInt 2014); ("person", person "Vik" "Jon Olav");
                 ("tittel", PStr "T")]);
         ("kategoridata",
          PDict [("tidsskriftsartikkel",
                  PDict [("tidsskrift", PDict [("navn", PStr "J")])])])].

Definition rec_person_null : pyval :=
  PDict [("fellesdata",
          PDict [("ar", PStr "2014"); ("person", PNone); ("tittel", PStr "T")]);
         ("kategoridata",
          PDict [("tidsskriftsartikkel",
                  PDict [("tidsskrift", PDict [("navn", PStr "J")])])])].

Definition rec_no_year : pyval :=
  PDict [("fellesdata", PDict [("person", person "Vik" "Jon Olav"); ("tittel", PStr "L")]);
         ("kategoridata", PDict [("foredragPoster", PDict [])])].

Definition rec_int (y : Z) (id : string) : pyval :=
  PDict [("fellesdata", PDict [("ar", PInt y); ("id", PStr id)])].

(** * Properties *)

(** ** The built-ins on sample inputs *)

Example int_of_str_examples :
  int_of_str "22311" = Some 22311 /\
  int_of_str " -22_311 " = Some (-22311) /\
  int_of_str "+007" = Some 7 /\
  int_of_str "" = None /\
  int_of_str "1__0" = None /\
  int_of_str "_1" = None /\
  int_of_str "- 1" = None /\
  int_of_str "Jon Olav Vik" = None.
Proof. repeat split. Qed.

Example int_of_str_limits :
  int_of_str (String (ascii_of_nat 28) "5") = None /\
  int_of_str (String (ascii_of_nat 160) "5") = Some 5 /\
  int_of_str (repeat_char "0" 4300) = Some 0 /\
  int_of_str (repeat_char "1" 4301) = None /\
  py_int (PStr (repeat_char "1" 4301)) = Raise ValueError.
Proof. repeat split; vm_compute; reflexivity. Qed.

Example py_str_examples :
  py_str (PInt (-3)) = Ok "-3" /\ py_str (PInt 0) = Ok "0" /\
  py_str PNone = Ok "None" /\ py_str (PStr "x") = Ok "x".
Proof. repeat split. Qed.

Example quote_plus_examples :
  quote_plus "Jon Olav Vik" = "Jon+Olav+Vik" /\
  quote_plus ("Dag Inge V" ++ String A_ring "ge") = "Dag+Inge+V%C3%A5ge" /\
  quote_plus "a&b=c/d~e" = "a%26b%3Dc%2Fd~e".
Proof. repeat split. Qed.

Example isupper_examples :
  isupper "J" = true /\ isupper "j" = false /\ isupper " " = false /\
  isupper O_slash = true /\ isupper A_ring = false /\
  Uppercase_firstname (PStr (String O_slash "yvind")) = Ok (String O_slash "") /\
  Uppercase_firstname (PStr "Jon Olav") = Ok "JO".
Proof. repeat split. Qed.

Example main_example :
  main net_vik =
  ([persons_url "Jon Olav Vik";
    "http://www.cristin.no/ws/hentVarbeiderPerson?lopenr=22311&fra=&til=&hovedkategori=TIDSSKRIFTPUBL&format=json"],
   Ok ("Jon Olav Vik.html",
       html_str_start
       ++ tab ++ tab
       ++ "<p> Nordb O, Vik JO (2014). T <em>J</em> <strong>(53)</strong>  http://dx.doi.org/10.1/x</p>"
       ++ nl ++ html_str_end)).
Proof. vm_compute. reflexivity. Qed.

(** ** The identifier resolver *)

Lemma io_bind_ret {A B : Type} (r : outcome A) (k : A -> io B) (net : network) :
  io_bind (io_ret r) k net =
  match r with
  | Ok a => k a net
  | Raise e => ([], Raise e)
  | Unmodelled => ([], Unmodelled)
  end.
Proof.
  unfold io_bind, io_ret. destruct r; try reflexivity.
  destruct (k a net); reflexivity.
Qed.

Lemma urlencode_name (name : string) :
  urlencode [("name", PStr name)] = Ok ("name=" ++ quote_plus name).
Proof.
  reflexivity.
Qed.

(** A name that is no integer is looked up with one request, and what
    comes back decides the result. *)
Lemma cristin_person_id_name (name : string) (net : network) :
  int_of_str name = None ->
  cristin_person_id (PStr name) net =
  ([persons_url name],
   person <- requests_get_json net (persons_url name) ;;
   if py_truthy person
   then p0 <- py_getitem0 person ;; py_getitem p0 "cristin_person_id"
   else Ok PNone).
Proof.
  intros Hname. unfold cristin_person_id, py_int. rewrite Hname.
  rewrite io_bind_ret, urlencode_name. cbv beta iota zeta.
  change ("https://api.cristin.no/v1/persons?" ++ ("name=" ++ quote_plus name))
    with (persons_url name).
  unfold io_bind, get_json.
  destruct (requests_get_json net (persons_url name)) as [person | e |];
    try reflexivity.
  unfold bind. destruct (py_truthy person); reflexivity.
Qed.

(** *** Strings of digits are integers to [int] *)

Ltac bool_arith :=
  repeat match goal with
         | |- context [Nat.leb ?a ?b] => destruct (Nat.leb_spec a b)
         | |- context [Nat.eqb ?a ?b] => destruct (Nat.eqb_spec a b)
         end;
  try reflexivity; try discriminate; lia.

Lemma is_digit_not_space (c : ascii) : is_digit c = true -> is_space c = false.
Proof.
  unfold is_digit, is_space, between. generalize (code c). intros n.
  bool_arith.
Qed.

Lemma is_digit_not_sign (c : ascii) :
  is_digit c = true -> Ascii.eqb c "-" = false /\ Ascii.eqb c "+" = false.
Proof.
  intros H. split; apply Ascii.eqb_neq; intros ->; discriminate.
Qed.

Lemma lstrip_digits (l : list ascii) :
  Forall (fun c => is_digit c = true) l -> lstrip l = l.
Proof.
  intros [| c l' Hc _]; [reflexivity |].
  simpl. now rewrite (is_digit_not_space c Hc).
Qed.

Lemma strip_digits (l : list ascii) :
  Forall (fun c => is_digit c = true) l -> strip l = l.
Proof.
  intros H. unfold strip. rewrite (lstrip_digits l H).
  rewrite (lstrip_digits (rev l)) by now apply Forall_rev.
  apply rev_involutive.
Qed.

Lemma all_digits_Forall (s : string) :
  all_digits s = true -> Forall (fun c => is_digit c = true) (list_ascii_of_string s).
Proof.
  induction s as [| c s IH]; simpl; intros H; constructor;
    apply andb_true_iff in H as [Hc Hs]; auto.
Qed.

Lemma digits_value_number (s : string) (acc : Z) :
  all_digits s = true ->
  digits_value acc false (list_ascii_of_string s) = Some (number_from acc s).
Proof.
  revert acc. induction s as [| c s IH]; intros acc H; [reflexivity |].
  cbn [all_digits] in H. apply andb_true_iff in H as [Hc Hs].
  cbn [list_ascii_of_string digits_value number_from]. rewrite Hc. now apply IH.
Qed.

Lemma count_digits_all (s : string) :
  all_digits s = true -> count_digits (list_ascii_of_string s) = String.length s.
Proof.
  unfold count_digits. induction s as [| c s IH]; [reflexivity |].
  cbn [all_digits list_ascii_of_string filter String.length]. intros H.
  apply andb_true_iff in H as [Hc Hs]. rewrite Hc. cbn [List.length].
  now rewrite IH.
Qed.

(** [int] reads a non-empty string of digits, of no more digits than the
    cap, as its decimal value. *)
Lemma int_of_digits (s : string) :
  all_digits s = true -> s <> "" ->
  (String.length s <= int_max_str_digits)%nat ->
  int_of_str s = Some (decimal_value s).
Proof.
  intros H Hne Hlen. unfold int_of_str.
  rewrite (strip_digits _ (all_digits_Forall s H)). cbv zeta.
  rewrite (count_digits_all s H).
  apply Nat.leb_le in Hlen. rewrite Hlen.
  destruct s as [| c s]; [congruence |].
  cbn [all_digits] in H. apply andb_true_iff in H as [Hc Hs].
  cbn [list_ascii_of_string].
  destruct (is_digit_not_sign c Hc) as [-> ->].
  cbn [unsigned_value]. rewrite Hc.
  now rewrite (digits_value_number s (digit_value c) Hs).
Qed.

(** C7: an author that [int] accepts is returned as that integer and no
    request is issued; so it is for every integer and for every non-empty
    string of digits that [int] reads (no more digits than its cap). *)
Theorem cristin_person_id_numeric :
  (forall (author : pyval) (n : Z) (net : network),
     py_int author = Ok n ->
     cristin_person_id author net = ([], Ok (PInt n))) /\
  (forall (n : Z) (net : network),
     cristin_person_id (PInt n) net = ([], Ok (PInt n))) /\
  (forall (s : string) (net : network),
     all_digits s = true -> s <> "" ->
     (String.length s <= int_max_str_digits)%nat ->
     cristin_person_id (PStr s) net = ([], Ok (PInt (decimal_value s)))).
Proof.
  assert (H : forall author n net,
             py_int author = Ok n ->
             cristin_person_id author net = ([], Ok (PInt n))).
  { intros author n net Hint. unfold cristin_person_id. now rewrite Hint. }
  split; [exact H | split].
  - intros n net. now apply H.
  - intros s net Hs Hne Hlen. apply H. unfold py_int.
    now rewrite (int_of_digits s Hs Hne Hlen).
Qed.

Lemma cristin_person_id_numeric_witness :
  cristin_person_id (PStr " 22_311 ") net_vik = ([], Ok (PInt 22311)) /\
  cristin_person_id (PInt 22311) net_vik = ([], Ok (PInt 22311)) /\
  cristin_person_id (PStr "22311") net_vik = ([], Ok (PInt 22311)).
Proof.
  split; [| split].
  - exact (proj1 cristin_person_id_numeric (PStr " 22_311 ") 22311 net_vik eq_refl).
  - exact (proj1 (proj2 cristin_person_id_numeric) 22311 net_vik).
  - refine (proj2 (proj2 cristin_person_id_numeric) "22311" net_vik eq_refl _ _).
    + discriminate.
    + unfold int_max_str_digits. cbn. lia.
Defined.

(** C8: for a name that is no integer, an empty list of candidates gives
    [None] and no exception; a non-empty list gives the identifier of its
    first candidate.  Either way exactly one request is issued. *)
Theorem cristin_person_id_candidates
    (name : string) (net : network) (status : Z) (candidates : list pyval) :
  int_of_str name = None ->
  net (persons_url name) = Reply status (Some (PList candidates)) ->
  (candidates = [] ->
   cristin_person_id (PStr name) net = ([persons_url name], Ok PNone)) /\
  (forall first rest id,
     candidates = first :: rest ->
     py_getitem first "cristin_person_id" = Ok id ->
     cristin_person_id (PStr name) net = ([persons_url name], Ok id)).
Proof.
  intros Hname Hnet. rewrite (cristin_person_id_name name net Hname).
  unfold requests_get_json. rewrite Hnet. split.
  - intros ->. reflexivity.
  - intros first rest id -> Hid. simpl. rewrite Hid. reflexivity.
Qed.

Lemma cristin_person_id_candidates_witness :
  cristin_person_id (PStr "Does not exist") net_vik =
    (["https://api.cristin.no/v1/persons?name=Does+not+exist"], Ok PNone) /\
  cristin_person_id (PStr "Jon Olav Vik") net_vik =
    (["https://api.cristin.no/v1/persons?name=Jon+Olav+Vik"], Ok (PInt 22311)).
Proof.
  split.
  - exact (proj1 (cristin_person_id_candidates "Does not exist" net_vik 200 []
                    eq_refl eq_refl) eq_refl).
  - exact (proj2 (cristin_person_id_candidates "Jon Olav Vik" net_vik 200
                    [PDict [("cristin_person_id", PInt 22311)]] eq_refl eq_refl)
                 _ [] (PInt 22311) eq_refl eq_refl).
Defined.

(** ** The publication fetcher *)

Lemma pubs_by_unfold (author fra til hovedkategori : pyval) (net : network) :
  pubs_by author fra til hovedkategori net =
  match cristin_person_id author net with
  | (t, Ok cpid) =>
      match pubs_url cpid fra til hovedkategori with
      | Ok url => ((t ++ [url])%list, requests_get_json net url)
      | Raise e => (t, Raise e)
      | Unmodelled => (t, Unmodelled)
      end
  | (t, Raise e) => (t, Raise e)
  | (t, Unmodelled) => (t, Unmodelled)
  end.
Proof.
  unfold pubs_by. unfold io_bind at 1.
  destruct (cristin_person_id author net) as [t [cpid | e |]]; try reflexivity.
  rewrite io_bind_ret.
  destruct (pubs_url cpid fra til hovedkategori) as [url | e |];
    rewrite ?app_nil_r; try reflexivity.
  unfold io_bind, get_json, io_ret.
  destruct (requests_get_json net url); rewrite ?app_nil_r; reflexivity.
Qed.

(** C1, as the code has it: a request that gets no response, or a body
    that is not JSON, raises, in the name search (then no publication
    request follows) as in the publication listing.  The status of a reply
    is never looked at: a JSON body is returned as the document whatever
    the status.  A name without candidates does not stop [pubs_by]: the
    publication request is issued with [None] as the person identifier. *)
Theorem pubs_by_error_paths (author fra til hovedkategori : pyval) (net : network) :
  (forall t e,
     cristin_person_id author net = (t, Raise e) ->
     pubs_by author fra til hovedkategori net = (t, Raise e)) /\
  (forall name,
     author = PStr name -> int_of_str name = None ->
     (net (persons_url name) = Unreachable ->
      pubs_by author fra til hovedkategori net =
        ([persons_url name], Raise ConnectionError)) /\
     (forall status,
        net (persons_url name) = Reply status None ->
        pubs_by author fra til hovedkategori net =
          ([persons_url name], Raise JSONDecodeError)) /\
     (forall status url,
        net (persons_url name) = Reply status (Some (PList [])) ->
        pubs_url PNone fra til hovedkategori = Ok url ->
        pubs_by author fra til hovedkategori net =
          ([persons_url name; url], requests_get_json net url))) /\
  (forall t cpid url,
     cristin_person_id author net = (t, Ok cpid) ->
     pubs_url cpid fra til hovedkategori = Ok url ->
     (net url = Unreachable ->
      pubs_by author fra til hovedkategori net =
        ((t ++ [url])%list, Raise ConnectionError)) /\
     (forall status,
        net url = Reply status None ->
        pubs_by author fra til hovedkategori net =
          ((t ++ [url])%list, Raise JSONDecodeError)) /\
     (forall status doc,
        net url = Reply status (Some doc) ->
        pubs_by author fra til hovedkategori net = ((t ++ [url])%list, Ok doc))).
Proof.
  split; [| split].
  - intros t e H. rewrite pubs_by_unfold, H. reflexivity.
  - intros name -> Hname. rewrite pubs_by_unfold.
    rewrite (cristin_person_id_name name net Hname). unfold requests_get_json.
    split; [| split].
    + intros ->. reflexivity.
    + intros status ->. reflexivity.
    + intros status url -> Hurl. simpl. rewrite Hurl. reflexivity.
  - intros t cpid url Hid Hurl. rewrite pubs_by_unfold, Hid, Hurl.
    unfold requests_get_json. split; [| split].
    + intros ->. reflexivity.
    + intros status ->. reflexivity.
    + intros status doc ->. reflexivity.
Qed.

Lemma pubs_by_error_paths_witness :
  pubs_by (PStr "Jon Olav Vik") fra_default til_default hovedkategori_default net_500 =
    ([persons_url "Jon Olav Vik"; pubs_url_None],
     Ok (PDict [("forskningsresultat", PList [])])) /\
  pubs_by (PStr "Arne Gjuvsland") fra_default til_default hovedkategori_default net_vik =
    ([persons_url "Arne Gjuvsland"], Raise ConnectionError).
Proof.
  split.
  - exact (proj2 (proj2 (proj1 (proj2
             (pubs_by_error_paths (PStr "Jon Olav Vik") fra_default til_default
                hovedkategori_default net_500))
             "Jon Olav Vik" eq_refl eq_refl))
           200 pubs_url_None eq_refl eq_refl).
  - exact (proj1 (proj1 (proj2
             (pubs_by_error_paths (PStr "Arne Gjuvsland") fra_default til_default
                hovedkategori_default net_vik))
             "Arne Gjuvsland" eq_refl eq_refl)
           eq_refl).
Defined.

(** C1 fails as stated: the name search finds nobody and the listing
    answers with status 500, yet [pubs_by] requests the publications of
    person [None] and hands the body back as a result, from which the main
    block goes on to write a document. *)
Lemma pubs_by_silent_counterexample :
  net_500 (persons_url name_of_user) = Reply 200 (Some (PList [])) /\
  net_500 pubs_url_None = Reply 500 (Some (PDict [("forskningsresultat", PList [])])) /\
  pubs_by (PStr name_of_user) fra_default til_default hovedkategori_default net_500 =
    ([persons_url name_of_user; pubs_url_None],
     Ok (PDict [("forskningsresultat", PList [])])) /\
  main net_500 =
    ([persons_url name_of_user; pubs_url_None],
     Ok ("Jon Olav Vik.html", document [])).
Proof.
  repeat split; vm_compute; reflexivity.
Qed.

(** ** Strings *)

Lemma append_assoc (a b c : string) : (a ++ b) ++ c = a ++ (b ++ c).
Proof. induction a as [| x a IH]; simpl; [reflexivity | now rewrite IH]. Qed.

Lemma append_nil_r (a : string) : a ++ "" = a.
Proof. induction a as [| x a IH]; simpl; [reflexivity | now rewrite IH]. Qed.

Lemma length_append (a b : string) :
  String.length (a ++ b) = (String.length a + String.length b)%nat.
Proof. induction a as [| x a IH]; simpl; [reflexivity | now rewrite IH]. Qed.

Lemma substring_prefix (a b : string) :
  substring 0 (String.length a) (a ++ b) = a.
Proof.
  induction a as [| x a IH]; simpl.
  - destruct b; reflexivity.
  - now rewrite IH.
Qed.

Lemma drop_last2_sep (a : string) : drop_last2 (a ++ ", ") = a.
Proof.
  unfold drop_last2. rewrite length_append. simpl String.length.
  replace (String.length a + 2 - 2)%nat with (String.length a) by lia.
  apply substring_prefix.
Qed.

(** ** The author list *)

Lemma author_name_render (k : pyval) (a : string * string) :
  is_author k a -> author_name k = Ok (render_author a).
Proof.
  intros [Hsur Hgiven]. unfold author_name. rewrite Hgiven. simpl.
  rewrite Hsur. simpl. unfold render_author, uppercase_letters.
  now rewrite append_assoc.
Qed.

(** Every name of the loop is followed by the separator. *)
Lemma authors_loop_render (ks : list pyval) (names : list (string * string)) :
  Forall2 is_author ks names ->
  forall authors,
    authors_loop ks authors =
    Ok (authors ++ String.concat "" (map (fun a => render_author a ++ ", ") names)).
Proof.
  induction 1 as [| k a ks names Hk _ IH]; intros authors.
  - simpl. now rewrite append_nil_r.
  - cbn [authors_loop]. rewrite (author_name_render k a Hk). cbn [bind].
    rewrite IH. f_equal. rewrite append_assoc. f_equal.
    destruct names as [| b names]; cbn [map String.concat].
    + now rewrite append_nil_r.
    + reflexivity.
Qed.

Lemma separators_trailing (a : string * string) (names : list (string * string)) :
  String.concat "" (map (fun a => render_author a ++ ", ") (a :: names)) =
  author_list (a :: names) ++ ", ".
Proof.
  revert a. induction names as [| b names IH]; intros a.
  - reflexivity.
  - change (String.concat "" (map (fun a => render_author a ++ ", ") (a :: b :: names)))
      with ((render_author a ++ ", ")
            ++ String.concat "" (map (fun a => render_author a ++ ", ") (b :: names))).
    rewrite IH.
    change (author_list (a :: b :: names))
      with (render_author a ++ ", " ++ author_list (b :: names)).
    now rewrite !append_assoc.
Qed.

Lemma drop_last2_separators (names : list (string * string)) :
  drop_last2 (String.concat "" (map (fun a => render_author a ++ ", ") names)) =
  author_list names.
Proof.
  destruct names as [| a names]; [reflexivity |].
  rewrite separators_trailing. apply drop_last2_sep.
Qed.

(** C6: the author string of a record is its authors, each as surname,
    space and the capitals of the given name, joined by a comma and a
    space, nothing after the last; a single author structure and the list
    holding just that structure give the same string (indeed the same
    outcome). *)
Theorem authors_of_rendering (i : pyval) :
  (forall ks names,
     py_path i ["fellesdata"; "person"] = Ok (PList ks) ->
     Forall2 is_author ks names ->
     authors_of i = Ok (author_list names)) /\
  (forall d a,
     py_path i ["fellesdata"; "person"] = Ok (PDict d) ->
     is_author (PDict d) a ->
     authors_of i = Ok (render_author a)) /\
  (forall i' d,
     py_path i ["fellesdata"; "person"] = Ok (PDict d) ->
     py_path i' ["fellesdata"; "person"] = Ok (PList [PDict d]) ->
     authors_of i = authors_of i').
Proof.
  split; [| split].
  - intros ks names Hpath Hks. unfold authors_of. rewrite Hpath. cbn [bind].
    rewrite (authors_loop_render ks names Hks). cbn [bind].
    f_equal. apply drop_last2_separators.
  - intros d a Hpath Ha. unfold authors_of. rewrite Hpath. cbn [bind].
    now apply author_name_render.
  - intros i' d Hpath Hpath'. unfold authors_of. rewrite Hpath, Hpath'.
    cbn [bind authors_loop].
    destruct (author_name (PDict d)) as [name | e |]; cbn [bind]; try reflexivity.
    f_equal. symmetry. apply drop_last2_sep.
Qed.

Lemma authors_of_rendering_witness :
  authors_of rec_2014 = Ok "Nordb O, Vik JO" /\
  authors_of (with_person (person "Omholt" "Stig William")) = Ok "Omholt SW" /\
  authors_of (with_person (person "Omholt" "Stig William")) =
  authors_of (with_person (PList [person "Omholt" "Stig William"])).
Proof.
  split; [| split].
  - apply (proj1 (authors_of_rendering rec_2014)
             [person "Nordb" "Oyvind"; person "Vik" "Jon Olav"]
             [("Nordb", "Oyvind"); ("Vik", "Jon Olav")] eq_refl).
    repeat constructor.
  - apply (proj1 (proj2 (authors_of_rendering
                           (with_person (person "Omholt" "Stig William"))))
             _ ("Omholt", "Stig William") eq_refl).
    split; reflexivity.
  - exact (proj2 (proj2 (authors_of_rendering
                           (with_person (person "Omholt" "Stig William"))))
             (with_person (PList [person "Omholt" "Stig William"])) _
             eq_refl eq_refl).
Defined.

(** ** One citation *)

Lemma py_getitem_Ok (v : pyval) (k : string) (x : pyval) :
  py_getitem v k = Ok x -> exists d, v = PDict d /\ assoc k d = Some x.
Proof.
  destruct v as [| b | n | s | l | d]; simpl; try discriminate.
  destruct (assoc k d) as [y |] eqn:E; [| discriminate].
  intros [= <-]. now exists d.
Qed.

Lemma py_path_cons_Ok (v : pyval) (k : string) (ks : list string) (x : pyval) :
  py_path v (k :: ks) = Ok x ->
  exists y, py_getitem v k = Ok y /\ py_path y ks = Ok x.
Proof.
  simpl. destruct (py_getitem v k) as [y | e |]; simpl; try discriminate.
  intros H. now exists y.
Qed.

(** Keys other than that of journal articles leave the list as it is. *)
Lemma categories_loop_skip (i : pyval) (authors : string)
    (items : list (string * pyval)) :
  Forall (fun kv => fst kv <> "tidsskriftsartikkel") items ->
  forall acc, categories_loop i authors items acc = Ok acc.
Proof.
  induction 1 as [| [k v] items Hk _ IH]; intros acc; simpl.
  - reflexivity.
  - apply String.eqb_neq in Hk. simpl in Hk. rewrite Hk. apply IH.
Qed.

Lemma categories_loop_filter (i : pyval) (authors k : string)
    (items : list (string * pyval)) :
  k <> "tidsskriftsartikkel" ->
  forall acc,
    categories_loop i authors
      (filter (fun kv => negb (String.eqb k (fst kv))) items) acc =
    categories_loop i authors items acc.
Proof.
  intros Hk. induction items as [| [k' v] items IH]; intros acc; simpl.
  - reflexivity.
  - destruct (String.eqb_spec k k') as [<- | Hne]; simpl.
    + apply String.eqb_neq in Hk. rewrite Hk. apply IH.
    + destruct (String.eqb k' "tidsskriftsartikkel"); [| apply IH].
      destruct (HTML_string i authors); simpl; auto.
Qed.

Lemma filter_key_absent (k : string) (items : list (string * pyval)) :
  Forall (fun kv => fst kv <> k)
         (filter (fun kv => negb (String.eqb k (fst kv))) items).
Proof.
  apply Forall_forall. intros kv Hin. apply filter_In in Hin as [_ Hkv].
  apply negb_true_iff, String.eqb_neq in Hkv. congruence.
Qed.

(** The loop over the categories of a dict: one citation when the dict has
    the key of journal articles, none otherwise. *)
Lemma categories_loop_dict (i : pyval) (authors : string)
    (d : list (string * pyval)) (acc : list string) :
  categories_loop i authors (dict_items d) acc =
  match assoc "tidsskriftsartikkel" d with
  | Some _ => h <- HTML_string i authors ;; Ok (acc ++ [h])%list
  | None => Ok acc
  end.
Proof.
  induction d as [| [k v] d IH]; [reflexivity |].
  cbn [dict_items categories_loop assoc].
  rewrite (String.eqb_sym "tidsskriftsartikkel" k).
  destruct (String.eqb_spec k "tidsskriftsartikkel") as [-> | Hne].
  - destruct (HTML_string i authors) as [h | e |]; simpl; try reflexivity.
    apply categories_loop_skip, filter_key_absent.
  - rewrite categories_loop_filter by exact Hne. apply IH.
Qed.

Lemma format_record_article (i : pyval) (authors : string)
    (kd : list (string * pyval)) (acc : list string) :
  authors_of i = Ok authors ->
  py_getitem i "kategoridata" = Ok (PDict kd) ->
  format_record i acc =
  match assoc "tidsskriftsartikkel" kd with
  | Some _ => h <- HTML_string i authors ;; Ok (acc ++ [h])%list
  | None => Ok acc
  end.
Proof.
  intros Ha Hkd. unfold format_record. rewrite Ha, Hkd. simpl.
  apply categories_loop_dict.
Qed.

(** The citation of a record with string fields, absent optional fields
    standing as empty strings. *)
Lemma HTML_string_fields (i : pyval) (authors year tittel journal : string)
    (volum articlenr doi : option string) :
  py_path i ["fellesdata"; "tittel"] = Ok (PStr tittel) ->
  py_path i ["fellesdata"; "ar"] = Ok (PStr year) ->
  py_path i (article ++ ["tidsskrift"; "navn"])%list = Ok (PStr journal) ->
  article_field i "volum" volum ->
  article_field i "artikkelnr" articlenr ->
  article_field i "doi" doi ->
  HTML_string i authors =
  Ok (citation_text authors year tittel journal volum articlenr doi).
Proof.
  unfold article_field. intros Ht Hy Hj Hv Ha Hd.
  unfold HTML_string. rewrite Ht, Hy, Hj, Hv, Ha, Hd.
  unfold citation_text.
  destruct volum, articlenr, doi; simpl;
    repeat (progress (rewrite ?append_assoc; simpl)); reflexivity.
Qed.

Lemma article_path (i : pyval) (ks : list string) (x : pyval) :
  py_path i (article ++ ks)%list = Ok x ->
  exists kd ja,
    py_getitem i "kategoridata" = Ok (PDict kd) /\
    assoc "tidsskriftsartikkel" kd = Some ja.
Proof.
  intros H. apply py_path_cons_Ok in H as (kd & Hkd & H).
  apply py_path_cons_Ok in H as (ja & Hja & _).
  apply py_getitem_Ok in Hja as (d & -> & Hja).
  now exists d, ja.
Qed.

Lemma format_record_fields (i : pyval) (authors year tittel journal : string)
    (volum articlenr doi : option string) (acc : list string) :
  authors_of i = Ok authors ->
  py_path i ["fellesdata"; "tittel"] = Ok (PStr tittel) ->
  py_path i ["fellesdata"; "ar"] = Ok (PStr year) ->
  py_path i (article ++ ["tidsskrift"; "navn"])%list = Ok (PStr journal) ->
  article_field i "volum" volum ->
  article_field i "artikkelnr" articlenr ->
  article_field i "doi" doi ->
  format_record i acc =
  Ok (acc ++ [citation_text authors year tittel journal volum articlenr doi])%list.
Proof.
  intros Hauthors Ht Hy Hj Hv Ha Hd.
  destruct (article_path i _ _ Hj) as (kd & ja & Hkd & Hja).
  rewrite (format_record_article i authors kd acc Hauthors Hkd), Hja.
  now rewrite (HTML_string_fields i authors year tittel journal volum articlenr doi).
Qed.

(** C4: the citation of a journal article that has all its fields is, in
    this order, the author list, the year in parentheses, the title, the
    journal in [em] tags, the volume in parentheses and [strong] tags, the
    article number if there is one, and the DOI behind the resolver's
    address. *)
Theorem journal_article_citation
    (i : pyval) (authors year tittel journal volum doi : string)
    (articlenr : option string) (html_codes_all : list string) :
  authors_of i = Ok authors ->
  py_path i ["fellesdata"; "tittel"] = Ok (PStr tittel) ->
  py_path i ["fellesdata"; "ar"] = Ok (PStr year) ->
  py_path i (article ++ ["tidsskrift"; "navn"])%list = Ok (PStr journal) ->
  article_field i "volum" (Some volum) ->
  article_field i "doi" (Some doi) ->
  article_field i "artikkelnr" articlenr ->
  format_record i html_codes_all =
  Ok (html_codes_all ++
      [("<p> " ++ authors ++ " (" ++ year ++ "). " ++ tittel ++ " "
        ++ "<em>" ++ journal ++ "</em>" ++ " "
        ++ "<strong>(" ++ volum ++ ")</strong>" ++ " "
        ++ or_empty articlenr ++ " "
        ++ "http://dx.doi.org/" ++ doi ++ "</p>")%string])%list.
Proof.
  intros Hauthors Ht Hy Hj Hv Hd Ha.
  rewrite (format_record_fields i authors year tittel journal (Some volum)
             articlenr (Some doi) html_codes_all); try assumption.
  unfold citation_text, volume_markup, doi_markup.
  now rewrite !append_assoc.
Qed.

Lemma journal_article_citation_witness :
  format_record rec_2014 [] =
  Ok ["<p> Nordb O, Vik JO (2014). T <em>J</em> <strong>(53)</strong>  http://dx.doi.org/10.1/x</p>"].
Proof.
  exact (journal_article_citation rec_2014 "Nordb O, Vik JO" "2014" "T" "J" "53"
           "10.1/x" None [] eq_refl eq_refl eq_refl eq_refl eq_refl eq_refl eq_refl).
Defined.

(** C5, as the code has it: an absent volume, article number or DOI stands
    in the citation as the empty string, so none of its markup is written,
    but the spaces between the fields are written all the same; without a
    volume two spaces follow the journal. *)
Theorem optional_fields_citation
    (i : pyval) (authors year tittel journal : string)
    (volum articlenr doi : option string) (html_codes_all : list string) :
  authors_of i = Ok authors ->
  py_path i ["fellesdata"; "tittel"] = Ok (PStr tittel) ->
  py_path i ["fellesdata"; "ar"] = Ok (PStr year) ->
  py_path i (article ++ ["tidsskrift"; "navn"])%list = Ok (PStr journal) ->
  article_field i "volum" volum ->
  article_field i "artikkelnr" articlenr ->
  article_field i "doi" doi ->
  format_record i html_codes_all =
    Ok (html_codes_all ++
        [citation_text authors year tittel journal volum articlenr doi])%list /\
  (volum = None ->
   citation_text authors year tittel journal volum articlenr doi =
   ("<p> " ++ authors ++ " (" ++ year ++ "). " ++ tittel ++ " "
    ++ "<em>" ++ journal ++ "</em>")
   ++ "  " ++ or_empty articlenr ++ " " ++ doi_markup doi ++ "</p>").
Proof.
  intros Hauthors Ht Hy Hj Hv Ha Hd. split.
  - now apply format_record_fields.
  - intros ->. unfold citation_text, volume_markup.
    repeat (progress (rewrite ?append_assoc; simpl)). reflexivity.
Qed.

Lemma optional_fields_citation_witness :
  format_record rec_no_volum [] =
  Ok ["<p> Gjuvsland AB (2010). T <em>J</em>  e9379 http://dx.doi.org/10.1/x</p>"].
Proof.
  exact (proj1 (optional_fields_citation rec_no_volum "Gjuvsland AB" "2010" "T" "J"
                  None (Some "e9379") (Some "10.1/x") []
                  eq_refl eq_refl eq_refl eq_refl eq_refl eq_refl eq_refl)).
Defined.

(** C5 fails as stated: the citation of a record without a volume has two
    spaces in a row, though no field of the record holds one. *)
Lemma missing_volum_double_space_counterexample :
  article_field rec_no_volum "volum" None /\
  format_record rec_no_volum [] =
    Ok ["<p> Gjuvsland AB (2010). T <em>J</em>  e9379 http://dx.doi.org/10.1/x</p>"] /\
  occurs "  "
    "<p> Gjuvsland AB (2010). T <em>J</em>  e9379 http://dx.doi.org/10.1/x</p>" = true.
Proof.
  repeat split.
Qed.

(** ** The formatting loop *)

Lemma format_loop_app (pre post : list pyval) (acc : list string) :
  format_loop (pre ++ post)%list acc =
  (acc' <- format_loop pre acc ;; format_loop post acc').
Proof.
  revert acc. induction pre as [| i pre IH]; intros acc; simpl.
  - reflexivity.
  - destruct (format_record i acc) as [acc' | e |]; simpl; auto.
Qed.

(** C2, as the code has it: a journal article whose common data lacks the
    title or the year raises [KeyError] when its turn comes, and the
    exception leaves the loop: the citations gathered so far are dropped
    and the records after it are not looked at.  Only a record without the
    journal article category is passed over. *)
Theorem malformed_record_aborts
    (pre post : list pyval) (r : pyval) (fd kd : list (string * pyval))
    (authors : string) (acc acc' : list string) :
  format_loop pre acc = Ok acc' ->
  authors_of r = Ok authors ->
  py_getitem r "fellesdata" = Ok (PDict fd) ->
  py_getitem r "kategoridata" = Ok (PDict kd) ->
  (assoc "tidsskriftsartikkel" kd = None ->
   format_loop (pre ++ r :: post)%list acc = format_loop post acc') /\
  (assoc "tidsskriftsartikkel" kd <> None ->
   assoc "tittel" fd = None \/ assoc "ar" fd = None ->
   format_loop (pre ++ r :: post)%list acc = Raise KeyError).
Proof.
  intros Hpre Hauthors Hfd Hkd.
  rewrite format_loop_app, Hpre. cbn [bind format_loop].
  rewrite (format_record_article r authors kd acc' Hauthors Hkd).
  split.
  - intros ->. reflexivity.
  - intros Hart Hmiss. destruct (assoc "tidsskriftsartikkel" kd); [| congruence].
    unfold HTML_string. cbn [py_path]. rewrite Hfd. cbn [bind py_getitem].
    destruct (assoc "tittel" fd) as [t |]; [| reflexivity].
    destruct Hmiss as [Hmiss | Hmiss]; [discriminate |].
    rewrite Hmiss. reflexivity.
Qed.

Lemma malformed_record_aborts_witness :
  format_loop [rec_foredrag; rec_2014] [] = format_loop [rec_2014] [] /\
  format_loop [rec_2014; rec_no_tittel; rec_no_volum] [] = Raise KeyError.
Proof.
  split.
  - exact (proj1 (malformed_record_aborts [] [rec_2014] rec_foredrag _ _
                    "Vik JO" [] [] eq_refl eq_refl eq_refl eq_refl) eq_refl).
  - refine (proj2 (malformed_record_aborts [rec_2014] [rec_no_volum] rec_no_tittel
                     _ _ "Gjuvsland AB" [] _ eq_refl eq_refl eq_refl eq_refl) _ _).
    + discriminate.
    + left. reflexivity.
Defined.

(** C2 fails as stated: of two records the second has no title; the first
    alone is formatted, the two together give no citation at all and the
    main block ends in [KeyError] without a document. *)
Lemma missing_tittel_counterexample :
  html_codes_of (results [rec_2014]) =
    Ok ["<p> Nordb O, Vik JO (2014). T <em>J</em> <strong>(53)</strong>  http://dx.doi.org/10.1/x</p>"] /\
  html_codes_of (results [rec_2014; rec_no_tittel]) = Raise KeyError /\
  snd (main net_malformed) = Raise KeyError.
Proof.
  repeat split.
Qed.

(** ** Sorting: what [sorted_desc] does for any strict order of keys *)

Section SortedFacts.
Context {K : Type} (ltb : K -> K -> bool).

#[local] Abbreviation entry := (K * pyval)%type.

Lemma insert_desc_perm (x : entry) (l : list entry) :
  Permutation (x :: l) (insert_desc ltb x l).
Proof.
  induction l as [| y l IH]; simpl.
  - apply Permutation_refl.
  - destruct (ltb (fst x) (fst y)).
    + eapply perm_trans; [apply perm_swap |]. now apply perm_skip.
    + apply Permutation_refl.
Qed.

Lemma sorted_desc_perm (l : list entry) : Permutation l (sorted_desc ltb l).
Proof.
  induction l as [| x l IH]; simpl.
  - apply perm_nil.
  - eapply perm_trans; [apply perm_skip, IH | apply insert_desc_perm].
Qed.

Lemma sorted_desc_Forall (P : entry -> Prop) (l : list entry) :
  Forall P l -> Forall P (sorted_desc ltb l).
Proof.
  intros H. rewrite Forall_forall in *. intros x Hx. apply H.
  eapply Permutation_in; [apply Permutation_sym, sorted_desc_perm | exact Hx].
Qed.

Section Order.
Hypothesis ltb_asym : forall a b, ltb a b = true -> ltb b a = false.
Hypothesis not_ltb_trans :
  forall a b c, ltb a b = false -> ltb b c = false -> ltb a c = false.

Lemma insert_desc_sorted (x : entry) (l : list entry) :
  StronglySorted (not_below ltb) l -> StronglySorted (not_below ltb) (insert_desc ltb x l).
Proof.
  induction 1 as [| y l Hl IH Hy]; simpl.
  - constructor; constructor.
  - destruct (ltb (fst x) (fst y)) eqn:E.
    + constructor; [exact IH |].
      rewrite Forall_forall in *. intros z Hz.
      apply (Permutation_in _ (Permutation_sym (insert_desc_perm x l))) in Hz.
      destruct Hz as [<- | Hz]; [now apply ltb_asym | now apply Hy].
    + constructor; [now constructor |].
      constructor; [exact E |].
      rewrite Forall_forall in *. intros z Hz.
      exact (not_ltb_trans _ _ _ E (Hy z Hz)).
Qed.

Lemma sorted_desc_sorted (l : list entry) :
  StronglySorted (not_below ltb) (sorted_desc ltb l).
Proof.
  induction l as [| x l IH]; simpl.
  - constructor.
  - now apply insert_desc_sorted.
Qed.
End Order.

Section Stable.
(** A class of entries no two of which are strictly ordered. *)
Variable p : entry -> bool.
Hypothesis p_unordered :
  forall a b, p a = true -> p b = true -> ltb (fst a) (fst b) = false.

Lemma insert_desc_filter (x : entry) (l : list entry) :
  filter p (insert_desc ltb x l) = filter p (x :: l).
Proof.
  induction l as [| y l IH]; [reflexivity |].
  cbn [insert_desc]. destruct (ltb (fst x) (fst y)) eqn:E; [| reflexivity].
  cbn [filter] in *. rewrite IH.
  destruct (p x) eqn:Hx, (p y) eqn:Hy; try reflexivity.
  rewrite (p_unordered x y Hx Hy) in E. discriminate.
Qed.

Lemma sorted_desc_filter (l : list entry) :
  filter p (sorted_desc ltb l) = filter p l.
Proof.
  induction l as [| x l IH]; [reflexivity |].
  cbn [sorted_desc fold_right]. fold (sorted_desc ltb l).
  rewrite insert_desc_filter. cbn [filter]. now rewrite IH.
Qed.
End Stable.

Section Transport.
(** Another order that agrees with [ltb] on the keys that satisfy [P]. *)
Context {K' : Type} (ltb' : K' -> K' -> bool) (g : K -> K') (P : K -> Prop).
Hypothesis agree : forall a b, P a -> P b -> ltb' (g a) (g b) = ltb a b.

Let g1 (e : entry) : K' * pyval := (g (fst e), snd e).

Lemma insert_desc_transport (x : entry) (l : list entry) :
  P (fst x) -> Forall (fun e => P (fst e)) l ->
  map g1 (insert_desc ltb x l) = insert_desc ltb' (g1 x) (map g1 l).
Proof.
  intros Hx Hl. induction Hl as [| y l Hy Hl IH]; [reflexivity |].
  cbn [insert_desc map]. unfold g1 at 2 3. cbn [fst].
  rewrite (agree _ _ Hx Hy).
  destruct (ltb (fst x) (fst y)); cbn [map]; [now rewrite IH | reflexivity].
Qed.

Lemma sorted_desc_transport (l : list entry) :
  Forall (fun e => P (fst e)) l ->
  map g1 (sorted_desc ltb l) = sorted_desc ltb' (map g1 l).
Proof.
  induction 1 as [| x l Hx Hl IH]; [reflexivity |].
  cbn [sorted_desc fold_right map]. fold (sorted_desc ltb l).
  fold (sorted_desc ltb' (map g1 l)). rewrite <- IH.
  apply insert_desc_transport; [exact Hx |].
  now apply (sorted_desc_Forall (fun e => P (fst e))).
Qed.
End Transport.
End SortedFacts.

(** ** Sorting records by a key *)

Section ByKey.
Context {K : Type} (ltb : K -> K -> bool) (key : pyval -> K).

Lemma map_snd_decorate (l : list pyval) : map snd (decorate key l) = l.
Proof.
  unfold decorate. rewrite map_map. simpl. apply map_id.
Qed.

Lemma combine_decorate (l : list pyval) : combine (map key l) l = decorate key l.
Proof. induction l as [| x l IH]; simpl; [reflexivity | now rewrite IH]. Qed.

Lemma decorate_sort_by (l : list pyval) :
  decorate key (sort_by ltb key l) = sorted_desc ltb (decorate key l).
Proof.
  unfold sort_by.
  assert (H : Forall (fun e => e = (key (snd e), snd e))
                     (sorted_desc ltb (decorate key l))).
  { apply sorted_desc_Forall. unfold decorate. apply Forall_forall.
    intros e He. apply in_map_iff in He as (x & <- & _). reflexivity. }
  induction H as [| e es He _ IH]; [reflexivity |].
  simpl. now rewrite IH, <- He.
Qed.

Lemma sort_by_perm (l : list pyval) : Permutation l (sort_by ltb key l).
Proof.
  unfold sort_by. rewrite <- (map_snd_decorate l) at 1.
  apply Permutation_map, sorted_desc_perm.
Qed.

Lemma sort_by_short (l : list pyval) : (List.length l < 2)%nat -> sort_by ltb key l = l.
Proof.
  destruct l as [| x [| y l]]; simpl; intros H; try reflexivity. lia.
Qed.

Lemma StronglySorted_decorate (R : K * pyval -> K * pyval -> Prop) (l : list pyval) :
  StronglySorted R (decorate key l) ->
  StronglySorted (fun a b => R (key a, a) (key b, b)) l.
Proof.
  induction l as [| x l IH]; simpl; intros H.
  - constructor.
  - apply StronglySorted_inv in H as [Hl Hx]. constructor; [now apply IH |].
    unfold decorate in Hx. rewrite Forall_map in Hx. exact Hx.
Qed.

Lemma sort_by_sorted (l : list pyval) :
  (forall a b, ltb a b = true -> ltb b a = false) ->
  (forall a b c, ltb a b = false -> ltb b c = false -> ltb a c = false) ->
  StronglySorted (fun a b => ltb (key a) (key b) = false) (sort_by ltb key l).
Proof.
  intros Hasym Htrans.
  apply (StronglySorted_decorate (not_below ltb)).
  rewrite decorate_sort_by. now apply sorted_desc_sorted.
Qed.

Lemma sort_by_stable (q : K -> bool) (l : list pyval) :
  (forall a b, q a = true -> q b = true -> ltb a b = false) ->
  filter (fun k => q (key k)) (sort_by ltb key l) = filter (fun k => q (key k)) l.
Proof.
  intros Hq.
  assert (E : forall l' : list (K * pyval),
             filter (fun k => q (key k)) (map snd l') =
             map snd (filter (fun e => q (key (snd e))) l')).
  { intros l'. apply (filter_map_swap (fun k => q (key k)) snd). }
  unfold sort_by. rewrite E.
  assert (F : forall l' : list (K * pyval),
             Forall (fun e => fst e = key (snd e)) l' ->
             filter (fun e => q (key (snd e))) l' = filter (fun e => q (fst e)) l').
  { intros l' H. apply filter_ext_in. rewrite Forall_forall in H.
    intros e He. now rewrite (H e He). }
  assert (D : forall l', Forall (fun e : K * pyval => fst e = key (snd e))
                                (decorate key l')).
  { intros l'. unfold decorate. apply Forall_forall. intros e He.
    apply in_map_iff in He as (x & <- & _). reflexivity. }
  rewrite F by (apply sorted_desc_Forall, D).
  rewrite (sorted_desc_filter ltb (fun e => q (fst e))).
  - rewrite <- F by apply D. rewrite <- E. now rewrite map_snd_decorate.
  - intros a b. apply Hq.
Qed.
End ByKey.

(** ** The order of strings *)

Lemma ascii_compare_refl (c : ascii) : Ascii.compare c c = Eq.
Proof. apply N.compare_refl. Qed.

Lemma compare_refl (s : string) : String.compare s s = Eq.
Proof.
  induction s as [| c s IH]; simpl; [reflexivity |].
  now rewrite ascii_compare_refl.
Qed.

Lemma ascii_compare_lt_trans (a b c : ascii) :
  Ascii.compare a b = Lt -> Ascii.compare b c = Lt -> Ascii.compare a c = Lt.
Proof.
  unfold Ascii.compare. rewrite !N.compare_lt_iff. apply N.lt_trans.
Qed.

Lemma compare_lt_trans (a b c : string) :
  String.compare a b = Lt -> String.compare b c = Lt -> String.compare a c = Lt.
Proof.
  revert b c. induction a as [| x a IH]; intros [| y b] [| z c]; simpl;
    try discriminate; try reflexivity.
  destruct (Ascii.compare x y) eqn:Exy; try discriminate;
    destruct (Ascii.compare y z) eqn:Eyz; try discriminate; intros Hab Hbc.
  - apply Ascii.compare_eq_iff in Exy, Eyz. subst.
    rewrite ascii_compare_refl. now apply IH with b.
  - apply Ascii.compare_eq_iff in Exy. subst. now rewrite Eyz.
  - apply Ascii.compare_eq_iff in Eyz. subst. now rewrite Exy.
  - now rewrite (ascii_compare_lt_trans x y z).
Qed.

Lemma ltb_irrefl (s : string) : String.ltb s s = false.
Proof. unfold String.ltb. now rewrite compare_refl. Qed.

Lemma ltb_asym (a b : string) : String.ltb a b = true -> String.ltb b a = false.
Proof.
  unfold String.ltb. rewrite (String.compare_antisym b a).
  destruct (String.compare a b); simpl; congruence.
Qed.


Lemma not_ltb_trans (a b c : string) :
  String.ltb a b = false -> String.ltb b c = false -> String.ltb a c = false.
Proof.
  unfold String.ltb. intros Hab Hbc.
  destruct (String.compare a c) eqn:Eac; try reflexivity.
  destruct (String.compare b c) eqn:Ebc; try discriminate.
  - apply String.compare_eq_iff in Ebc. subst. now rewrite Eac in Hab.
  - destruct (String.compare a b) eqn:Eab; try discriminate.
    + apply String.compare_eq_iff in Eab. subst. congruence.
    + rewrite String.compare_antisym in Ebc.
      destruct (String.compare c b) eqn:Ecb; try discriminate.
      pose proof (compare_lt_trans _ _ _ Eac Ecb). congruence.
Qed.

(** ** The document assembler *)

Lemma StronglySorted_weaken {A : Type} (R R' : A -> A -> Prop) (l : list A) :
  (forall a b, R a b -> R' a b) -> StronglySorted R l -> StronglySorted R' l.
Proof.
  intros HR. induction 1 as [| a l _ IH Ha]; constructor; [exact IH |].
  eapply Forall_impl; [apply HR | exact Ha].
Qed.

Lemma year_str_of (k : pyval) (y : string) : year_of k = Ok (PStr y) -> year_str k = y.
Proof. unfold year_str. now intros ->. Qed.

Lemma map_outcome_years (records : list pyval) :
  Forall has_str_year records ->
  map_outcome year_of records = Ok (map (fun k => PStr (year_str k)) records).
Proof.
  induction 1 as [| k records [y Hy] _ IH]; [reflexivity |].
  cbn [map_outcome map]. rewrite IH, (year_str_of k y Hy), Hy. reflexivity.
Qed.

Lemma all_some_as_str {A : Type} (f : A -> string) (l : list A) :
  all_some as_str (map (fun k => PStr (f k)) l) = Some (map f l).
Proof. induction l as [| x l IH]; simpl; [reflexivity | now rewrite IH]. Qed.

(** On records whose years are strings, [data_sort] is the stable
    descending sort by the order of strings. *)
Lemma data_sort_strings (data : pyval) (records : list pyval) :
  py_getitem data "forskningsresultat" = Ok (PList records) ->
  Forall has_str_year records ->
  data_sort data = Ok (sort_by String.ltb year_str records).
Proof.
  intros Hdata Hyears. unfold data_sort. rewrite Hdata. cbn [bind py_iter].
  fold year_of. rewrite (map_outcome_years records Hyears). cbn [bind].
  unfold py_sorted_reverse.
  destruct (List.length records <? 2)%nat eqn:E.
  - apply Nat.ltb_lt in E. now rewrite sort_by_short.
  - rewrite all_some_as_str, combine_decorate. reflexivity.
Qed.

(** What a record adds to the citations does not depend on those gathered
    before it. *)
Lemma format_record_acc (i : pyval) (acc : list string) :
  format_record i acc = (l <- format_record i [] ;; Ok (acc ++ l)%list).
Proof.
  unfold format_record.
  destruct (authors_of i) as [authors | e |]; try reflexivity. cbn [bind].
  destruct (py_getitem i "kategoridata") as [kd | e |]; try reflexivity. cbn [bind].
  destruct kd as [| b | n | s | l | d]; try reflexivity.
  cbn [py_items bind]. rewrite !categories_loop_dict.
  destruct (assoc "tidsskriftsartikkel" d).
  - destruct (HTML_string i authors); reflexivity.
  - cbn [bind]. now rewrite app_nil_r.
Qed.




(** ** Years as strings and years as numbers *)

Lemma number_from_shift (acc : Z) (s : string) :
  number_from acc s = acc * 10 ^ Z.of_nat (String.length s) + number_from 0 s.
Proof.
  revert acc. induction s as [| c s IH]; intros acc.
  - simpl. lia.
  - cbn [number_from String.length]. rewrite (IH (10 * acc + digit_value c)).
    rewrite (IH (10 * 0 + digit_value c)).
    rewrite Nat2Z.inj_succ, Z.pow_succ_r by lia. ring.
Qed.

Lemma decimal_value_cons (c : ascii) (s : string) :
  decimal_value (String c s) =
  digit_value c * 10 ^ Z.of_nat (String.length s) + decimal_value s.
Proof.
  unfold decimal_value. cbn [number_from]. rewrite number_from_shift.
  reflexivity.
Qed.

Lemma is_digit_value (c : ascii) : is_digit c = true -> 0 <= digit_value c <= 9.
Proof.
  unfold is_digit, between, digit_value. intros H.
  apply andb_true_iff in H as [H1 H2].
  apply Nat.leb_le in H1, H2. lia.
Qed.

Lemma decimal_value_bound (s : string) :
  all_digits s = true -> 0 <= decimal_value s < 10 ^ Z.of_nat (String.length s).
Proof.
  induction s as [| c s IH]; intros H.
  - cbn. lia.
  - cbn [all_digits] in H. apply andb_true_iff in H as [Hc Hs].
    rewrite decimal_value_cons. cbn [String.length].
    rewrite Nat2Z.inj_succ, Z.pow_succ_r by lia.
    pose proof (is_digit_value c Hc). specialize (IH Hs). nia.
Qed.

Lemma ascii_compare_digit_value (c c' : ascii) :
  Ascii.compare c c' = Z.compare (digit_value c) (digit_value c').
Proof.
  unfold Ascii.compare, digit_value, code, nat_of_ascii.
  rewrite !N_nat_Z. symmetry.
  destruct (N.compare_spec (N_of_ascii c) (N_of_ascii c')) as [E | E | E].
  - rewrite E. apply Z.compare_refl.
  - apply Z.compare_lt_iff. lia.
  - apply Z.compare_gt_iff. lia.
Qed.

(** Digit strings of one length compare as the numbers they denote. *)
Lemma compare_decimal_value (x y : string) :
  all_digits x = true -> all_digits y = true ->
  String.length x = String.length y ->
  String.compare x y = Z.compare (decimal_value x) (decimal_value y).
Proof.
  revert y. induction x as [| c x IH]; intros [| c' y] Hx Hy Hlen;
    try discriminate; [reflexivity |].
  cbn [all_digits] in Hx, Hy.
  apply andb_true_iff in Hx as [Hc Hx], Hy as [Hc' Hy].
  injection Hlen as Hlen. cbn [String.compare].
  rewrite ascii_compare_digit_value, !decimal_value_cons, <- Hlen.
  pose proof (decimal_value_bound x Hx) as Bx.
  pose proof (decimal_value_bound y Hy) as By. rewrite <- Hlen in By.
  set (P := 10 ^ Z.of_nat (String.length x)) in *.
  destruct (Z.compare_spec (digit_value c) (digit_value c')) as [E | E | E].
  - rewrite E, (IH y Hx Hy Hlen).
    symmetry. apply Z.add_compare_mono_l.
  - symmetry. apply Z.compare_lt_iff. nia.
  - symmetry. apply Z.compare_gt_iff. nia.
Qed.

Lemma ltb_decimal_value (n : nat) (x y : string) :
  (all_digits x = true /\ String.length x = n) ->
  (all_digits y = true /\ String.length y = n) ->
  Z.ltb (decimal_value x) (decimal_value y) = String.ltb x y.
Proof.
  intros [Hx Lx] [Hy Ly]. unfold Z.ltb, String.ltb.
  now rewrite (compare_decimal_value x y Hx Hy) by congruence.
Qed.

Lemma all_digits_repeat (c : ascii) (n : nat) :
  is_digit c = true -> all_digits (repeat_char c n) = true.
Proof.
  intros Hc. induction n as [| n IH]; simpl; [reflexivity | now rewrite Hc, IH].
Qed.

Lemma length_repeat (c : ascii) (n : nat) : String.length (repeat_char c n) = n.
Proof. induction n as [| n IH]; simpl; [reflexivity | now rewrite IH]. Qed.

Lemma decimal_value_zeros (k : nat) : decimal_value (repeat_char "0" k) = 0.
Proof.
  induction k as [| k IH]; [reflexivity |].
  cbn [repeat_char]. rewrite decimal_value_cons, IH. reflexivity.
Qed.

Lemma decimal_value_one_zeros (k : nat) :
  decimal_value (String "1" (repeat_char "0" k)) = 10 ^ Z.of_nat k.
Proof.
  rewrite decimal_value_cons, decimal_value_zeros, length_repeat.
  change (digit_value "1") with 1. lia.
Qed.

Lemma decimal_value_nines (m : nat) :
  decimal_value (repeat_char "9" m) = 10 ^ Z.of_nat m - 1.
Proof.
  induction m as [| m IH]; [reflexivity |].
  cbn [repeat_char]. rewrite decimal_value_cons, IH, length_repeat.
  change (digit_value "9") with 9.
  rewrite Nat2Z.inj_succ, Z.pow_succ_r by lia. lia.
Qed.

Lemma sort_by_two {K : Type} (ltb : K -> K -> bool) (key : pyval -> K) (r1 r2 : pyval) :
  sort_by ltb key [r1; r2] = if ltb (key r1) (key r2) then [r2; r1] else [r1; r2].
Proof.
  unfold sort_by. cbn. destruct (ltb (key r1) (key r2)); reflexivity.
Qed.

Lemma digit_year_str (n : nat) (k : pyval) :
  digit_year n k -> all_digits (year_str k) = true /\ String.length (year_str k) = n.
Proof.
  intros (y & Hy & Hd & Hl). now rewrite (year_str_of k y Hy).
Qed.

Lemma sort_by_decimal_valueber_strings (n : nat) (records : list pyval) :
  Forall (digit_year n) records ->
  sort_by String.ltb year_str records = sort_by_decimal_valueber records.
Proof.
  intros H. unfold sort_by, sort_by_decimal_valueber.
  pose proof (sorted_desc_transport String.ltb Z.ltb decimal_value
                (fun y => all_digits y = true /\ String.length y = n)
                (ltb_decimal_value n) (decorate year_str records)) as T.
  assert (D : Forall (fun e : string * pyval =>
                        all_digits (fst e) = true /\ String.length (fst e) = n)
                     (decorate year_str records)).
  { unfold decorate. rewrite Forall_map. cbn [fst].
    eapply Forall_impl; [| exact H]. apply digit_year_str. }
  specialize (T D). unfold decorate in T at 2. rewrite map_map in T. cbn [fst snd] in T.
  unfold decorate at 2. rewrite <- T, map_map. reflexivity.
Qed.




(** Two years of different lengths that the two orders place differently. *)
Lemma unequal_length_years (m n : nat) :
  (1 <= m)%nat -> (1 <= n)%nat -> m <> n ->
  exists y1 y2,
    (all_digits y1 = true /\ String.length y1 = m) /\
    (all_digits y2 = true /\ String.length y2 = n) /\
    String.ltb y1 y2 <> Z.ltb (decimal_value y1) (decimal_value y2) /\
    y1 <> y2.
Proof.
  intros Hm Hn Hne.
  destruct m as [| m']; [lia |]. destruct n as [| n']; [lia |].
  destruct (Nat.lt_ge_cases m' n') as [Hlt | Hge].
  - exists (repeat_char "9" (S m')), (String "1" (repeat_char "0" n')).
    repeat split.
    + now apply all_digits_repeat.
    + apply length_repeat.
    + cbn [all_digits]. now rewrite all_digits_repeat.
    + cbn [String.length]. now rewrite length_repeat.
    + rewrite decimal_value_nines, decimal_value_one_zeros.
      change (String.ltb (repeat_char "9" (S m')) (String "1" (repeat_char "0" n')))
        with false.
      assert (10 ^ Z.of_nat (S m') <= 10 ^ Z.of_nat n')
        by (apply Z.pow_le_mono_r; lia).
      symmetry. intros E. apply Z.ltb_ge in E. lia.
    + discriminate.
  - exists (String "1" (repeat_char "0" m')), (repeat_char "9" (S n')).
    repeat split.
    + cbn [all_digits]. now rewrite all_digits_repeat.
    + cbn [String.length]. now rewrite length_repeat.
    + now apply all_digits_repeat.
    + apply length_repeat.
    + rewrite decimal_value_nines, decimal_value_one_zeros.
      change (String.ltb (String "1" (repeat_char "0" m')) (repeat_char "9" (S n')))
        with true.
      assert (10 ^ Z.of_nat (S n') <= 10 ^ Z.of_nat m')
        by (apply Z.pow_le_mono_r; lia).
      intros E. symmetry in E. apply Z.ltb_lt in E. lia.
    + discriminate.
Qed.

(** C9: the sort compares the years as strings.  When all years are digit
    strings of one length this is the order of the numbers; for any two
    different lengths there are years of these lengths that the sort
    places against the order of the numbers, as it does 999 and 1000. *)
Theorem data_sort_compares_strings :
  (forall data records,
     py_getitem data "forskningsresultat" = Ok (PList records) ->
     Forall has_str_year records ->
     data_sort data = Ok (sort_by String.ltb year_str records)) /\
  (forall data records n,
     py_getitem data "forskningsresultat" = Ok (PList records) ->
     Forall (digit_year n) records ->
     data_sort data = Ok (sort_by_decimal_valueber records)) /\
  (forall m n,
     (1 <= m)%nat -> (1 <= n)%nat -> m <> n ->
     exists y1 y2,
       (all_digits y1 = true /\ String.length y1 = m) /\
       (all_digits y2 = true /\ String.length y2 = n) /\
       data_sort (results [year_rec y1; year_rec y2]) <>
       Ok (sort_by_decimal_valueber [year_rec y1; year_rec y2])) /\
  (String.ltb "1000" "999" = true /\
   data_sort (results [year_rec "1000"; year_rec "999"]) =
     Ok [year_rec "999"; year_rec "1000"] /\
   sort_by_decimal_valueber [year_rec "1000"; year_rec "999"] =
     [year_rec "1000"; year_rec "999"]).
Proof.
  split; [exact data_sort_strings | split; [| split]].
  - intros data records n Hdata Hyears.
    rewrite (data_sort_strings data records Hdata).
    + now rewrite (sort_by_decimal_valueber_strings n).
    + eapply Forall_impl; [| exact Hyears].
      intros k (y & Hy & _). now exists y.
  - intros m n Hm Hn Hne.
    destruct (unequal_length_years m n Hm Hn Hne) as (y1 & y2 & H1 & H2 & Hord & Hy).
    exists y1, y2. split; [exact H1 | split; [exact H2 |]].
    rewrite (data_sort_strings (results [year_rec y1; year_rec y2])
               [year_rec y1; year_rec y2] eq_refl)
      by (repeat constructor; eexists; reflexivity).
    change (sort_by_decimal_valueber [year_rec y1; year_rec y2])
      with (sort_by Z.ltb (fun k => decimal_value (year_str k)) [year_rec y1; year_rec y2]).
    rewrite !sort_by_two.
    change (year_str (year_rec y1)) with y1. change (year_str (year_rec y2)) with y2.
    unfold year_rec.
    destruct (String.ltb y1 y2), (Z.ltb (decimal_value y1) (decimal_value y2));
      congruence.
  - repeat split.
Qed.

Lemma data_sort_compares_strings_witness :
  data_sort (results [rec_no_volum; rec_2014]) = Ok [rec_2014; rec_no_volum] /\
  data_sort (results [rec_no_volum; rec_2014]) =
    Ok (sort_by_decimal_valueber [rec_no_volum; rec_2014]) /\
  (exists y1 y2,
     (all_digits y1 = true /\ String.length y1 = 3%nat) /\
     (all_digits y2 = true /\ String.length y2 = 4%nat) /\
     data_sort (results [year_rec y1; year_rec y2]) <>
     Ok (sort_by_decimal_valueber [year_rec y1; year_rec y2])).
Proof.
  split; [| split].
  - apply (proj1 data_sort_compares_strings (results [rec_no_volum; rec_2014])
             [rec_no_volum; rec_2014] eq_refl).
    repeat constructor; eexists; reflexivity.
  - apply (proj1 (proj2 data_sort_compares_strings)
             (results [rec_no_volum; rec_2014]) [rec_no_volum; rec_2014] 4%nat eq_refl).
    repeat constructor; eexists; repeat split.
  - apply (proj1 (proj2 (proj2 data_sort_compares_strings)) 3%nat 4%nat); lia.
Defined.

(** ** [citation] *)

(** C10: [citation] yields [None] whatever the record, and so never a
    citation string, not even for a record the main block formats. *)
Theorem citation_returns_None :
  (forall pub : pyval, citation pub = Ok PNone) /\
  (forall (pub : pyval) (s : string), citation pub <> Ok (PStr s)) /\
  (exists h, format_record rec_2014 [] = Ok [h] /\ citation rec_2014 = Ok PNone).
Proof.
  split; [reflexivity | split].
  - intros pub s. discriminate.
  - eexists. split; reflexivity.
Qed.

(** * Further properties *)

(** ** The resolver: requests and unexpected replies *)

(** X1: for an author among the values of the embedding ([None], a
    boolean, an integer, a string, a list, an object) the resolver issues
    at most one request, and only the name search: its log is empty, or
    the author is a string that [int] rejects and the log holds the search
    URL of that name. *)
Theorem cristin_person_id_log (author : pyval) (net : network) :
  fst (cristin_person_id author net) = [] \/
  exists name,
    author = PStr name /\ int_of_str name = None /\
    fst (cristin_person_id author net) = [persons_url name].
Proof.
  destruct author as [| b | n | s | l | d]; try (left; reflexivity).
  destruct (int_of_str s) as [n |] eqn:E.
  - left. unfold cristin_person_id, py_int. now rewrite E.
  - right. exists s. rewrite (cristin_person_id_name s net E). auto.
Qed.

(** X2: of the values of the embedding only a string can cause a request:
    a boolean or an integer is returned without one, and [None], a list
    and an object end in [TypeError], which the [except ValueError] of the
    resolver lets through, again without a request. *)
Theorem cristin_person_id_not_str (author : pyval) (net : network) :
  (forall name, author <> PStr name) ->
  fst (cristin_person_id author net) = [] /\
  (as_num author = None -> cristin_person_id author net = ([], Raise TypeError)).
Proof.
  intros Hstr.
  destruct author as [| b | n | s | l | d]; try (split; [reflexivity |]);
    try (intros _; reflexivity); try discriminate.
  now destruct (Hstr s).
Qed.

Lemma cristin_person_id_not_str_witness :
  cristin_person_id PNone net_vik = ([], Raise TypeError) /\
  cristin_person_id (PList [PStr "Jon Olav Vik"]) net_vik = ([], Raise TypeError).
Proof.
  split.
  - refine (proj2 (cristin_person_id_not_str PNone net_vik _) eq_refl).
    intros name. discriminate.
  - refine (proj2 (cristin_person_id_not_str (PList [PStr "Jon Olav Vik"]) net_vik _)
              eq_refl).
    intros name. discriminate.
Defined.

(** X3: for a name that is no integer, every reply whose body counts as
    false ([[]], [{}], [null], [false], [0], the empty string) gives
    [None], whatever its status; no exception is raised. *)
Theorem cristin_person_id_falsy
    (name : string) (net : network) (status : Z) (body : pyval) :
  int_of_str name = None ->
  net (persons_url name) = Reply status (Some body) ->
  py_truthy body = false ->
  cristin_person_id (PStr name) net = ([persons_url name], Ok PNone).
Proof.
  intros Hname Hnet Hbody. rewrite (cristin_person_id_name name net Hname).
  unfold requests_get_json. rewrite Hnet. cbn [bind]. now rewrite Hbody.
Qed.

Lemma cristin_person_id_falsy_witness :
  cristin_person_id (PStr "Does not exist") net_null =
  ([persons_url "Does not exist"], Ok PNone).
Proof.
  exact (cristin_person_id_falsy "Does not exist" net_null 404 (PDict [])
           eq_refl eq_refl eq_refl).
Defined.

(** X4: a reply that counts as true but is no list of candidate objects
    makes the resolver raise: [KeyError] when the first candidate has no
    identifier or the body is an object, [TypeError] when the first
    candidate is no object or the body is a string or a number. *)
Theorem cristin_person_id_malformed
    (name : string) (net : network) (status : Z) (body : pyval) :
  int_of_str name = None ->
  net (persons_url name) = Reply status (Some body) ->
  (forall first rest e,
     body = PList (first :: rest) ->
     py_getitem first "cristin_person_id" = Raise e ->
     cristin_person_id (PStr name) net = ([persons_url name], Raise e)) /\
  (forall k v d,
     body = PDict ((k, v) :: d) ->
     cristin_person_id (PStr name) net = ([persons_url name], Raise KeyError)) /\
  (forall c s,
     body = PStr (String c s) ->
     cristin_person_id (PStr name) net = ([persons_url name], Raise TypeError)) /\
  (forall n,
     body = PInt n -> n <> 0 ->
     cristin_person_id (PStr name) net = ([persons_url name], Raise TypeError)).
Proof.
  intros Hname Hnet. rewrite (cristin_person_id_name name net Hname).
  unfold requests_get_json. rewrite Hnet. cbn [bind].
  split; [| split; [| split]].
  - intros first rest e -> He. cbn. now rewrite He.
  - intros k v d ->. reflexivity.
  - intros c s ->. reflexivity.
  - intros n -> Hn. cbn. apply Z.eqb_neq in Hn. now rewrite Hn.
Qed.

Lemma cristin_person_id_malformed_witness :
  cristin_person_id (PStr "A") net_odd = ([persons_url "A"], Raise KeyError) /\
  cristin_person_id (PStr "B") net_odd = ([persons_url "B"], Raise KeyError) /\
  cristin_person_id (PStr "C") net_odd = ([persons_url "C"], Raise TypeError).
Proof.
  split; [| split].
  - exact (proj1 (cristin_person_id_malformed "A" net_odd 200 _ eq_refl eq_refl)
             _ _ KeyError eq_refl eq_refl).
  - exact (proj1 (proj2 (cristin_person_id_malformed "B" net_odd 200 _ eq_refl eq_refl))
             _ _ _ eq_refl).
  - exact (proj1 (cristin_person_id_malformed "C" net_odd 200 _ eq_refl eq_refl)
             _ _ TypeError eq_refl eq_refl).
Defined.

(** ** The fetcher: requests *)

(** X5: when identifier, bounds and category are values that [str]
    renders in the embedding (the run does not end [Unmodelled]), the
    fetcher adds at most one request to those of the resolver: either the
    listing for the identifier the resolver returned is requested once and
    the outcome is that of the request, or nothing more is requested and
    the fetcher raises. *)
Theorem pubs_by_log (author fra til hovedkategori : pyval) (net : network) :
  snd (pubs_by author fra til hovedkategori net) <> Unmodelled ->
  let before := cristin_person_id author net in
  (exists cpid url,
     snd before = Ok cpid /\
     pubs_url cpid fra til hovedkategori = Ok url /\
     pubs_by author fra til hovedkategori net =
       ((fst before ++ [url])%list, requests_get_json net url)) \/
  (exists e, pubs_by author fra til hovedkategori net = (fst before, Raise e)).
Proof.
  cbv zeta. rewrite pubs_by_unfold.
  destruct (cristin_person_id author net) as [t [cpid | e |]]; cbn [fst snd].
  - destruct (pubs_url cpid fra til hovedkategori) as [url | e |] eqn:E;
      cbn [snd]; intros H.
    + left. now exists cpid, url.
    + right. now exists e.
    + now destruct H.
  - intros _. right. now exists e.
  - intros H. now destruct H.
Qed.

Lemma pubs_by_log_witness :
  (exists cpid url,
     snd (cristin_person_id (PStr "Jon Olav Vik") net_500) = Ok cpid /\
     pubs_url cpid fra_default til_default hovedkategori_default = Ok url /\
     pubs_by (PStr "Jon Olav Vik") fra_default til_default hovedkategori_default net_500 =
       ((fst (cristin_person_id (PStr "Jon Olav Vik") net_500) ++ [url])%list,
        requests_get_json net_500 url)) \/
  (exists e,
     pubs_by (PStr "Jon Olav Vik") fra_default til_default hovedkategori_default net_500 =
     (fst (cristin_person_id (PStr "Jon Olav Vik") net_500), Raise e)).
Proof.
  apply (pubs_by_log (PStr "Jon Olav Vik") fra_default til_default
           hovedkategori_default net_500).
  vm_compute. discriminate.
Defined.

(** ** Quoting *)

Lemma all_chars_append (p : ascii -> bool) (a b : string) :
  all_chars p (a ++ b) = (all_chars p a && all_chars p b)%bool.
Proof.
  induction a as [| x a IH]; simpl; [reflexivity |].
  now rewrite IH, andb_assoc.
Qed.

Lemma count_char_append (c : ascii) (a b : string) :
  count_char c (a ++ b) = (count_char c a + count_char c b)%nat.
Proof.
  induction a as [| x a IH]; simpl; [reflexivity |]. rewrite IH. lia.
Qed.

Lemma count_char_absent (p : ascii -> bool) (c : ascii) (s : string) :
  p c = false -> all_chars p s = true -> count_char c s = O.
Proof.
  intros Hc. induction s as [| x s IH]; simpl; [reflexivity |].
  intros H. apply andb_true_iff in H as [Hx Hs].
  destruct (Ascii.eqb_spec c x) as [-> | _]; [congruence |]. now rewrite IH.
Qed.

Lemma quote_char_url_chars (c : ascii) : all_chars url_char (quote_char c) = true.
Proof. destruct c as [[] [] [] [] [] [] [] []]; reflexivity. Qed.

Lemma quote_plus_all_chars (s : string) : all_chars url_char (quote_plus s) = true.
Proof.
  induction s as [| c s IH]; [reflexivity |].
  cbn [quote_plus]. fold (quote_char c).
  now rewrite all_chars_append, quote_char_url_chars, IH.
Qed.

Lemma quote_plus_count (c : ascii) (s : string) :
  url_char c = false -> count_char c (quote_plus s) = O.
Proof.
  intros Hc. apply (count_char_absent url_char); [exact Hc |].
  apply quote_plus_all_chars.
Qed.

(** A quoted string holds only letters, digits, [_.-~], the plus sign and
    the percent sign: never a space, an ampersand, an equals sign, a
    question mark or a hash. *)
Lemma quote_plus_url_chars (s : string) :
  all_chars url_char (quote_plus s) = true /\
  count_char " " (quote_plus s) = O /\
  count_char "&" (quote_plus s) = O /\
  count_char "=" (quote_plus s) = O /\
  count_char "?" (quote_plus s) = O /\
  count_char "#" (quote_plus s) = O.
Proof.
  split; [apply quote_plus_all_chars |].
  repeat split; now apply quote_plus_count.
Qed.

Lemma unquote_bytes_quote_char (c : ascii) (rest : string) :
  unquote_bytes (quote_char c ++ rest) = (utf8 c ++ unquote_bytes rest)%list.
Proof. destruct c as [[] [] [] [] [] [] [] []]; reflexivity. Qed.

Lemma utf8_decode_utf8 (c : ascii) (rest : list nat) :
  utf8_decode (utf8 c ++ rest)%list = String c (utf8_decode rest).
Proof. destruct c as [[] [] [] [] [] [] [] []]; reflexivity. Qed.

Lemma unquote_bytes_quote_plus (s : string) :
  unquote_bytes (quote_plus s) = utf8_bytes s.
Proof.
  induction s as [| c s IH]; [reflexivity |].
  cbn [quote_plus]. fold (quote_char c).
  rewrite unquote_bytes_quote_char, IH. reflexivity.
Qed.

Lemma utf8_decode_bytes (s : string) : utf8_decode (utf8_bytes s) = s.
Proof.
  induction s as [| c s IH]; [reflexivity |].
  unfold utf8_bytes. cbn [list_ascii_of_string flat_map].
  rewrite utf8_decode_utf8. f_equal. exact IH.
Qed.

Lemma append_inj_l (a b c : string) : a ++ b = a ++ c -> b = c.
Proof. induction a as [| x a IH]; simpl; [auto |]. intros [= H]. auto. Qed.

Lemma quote_plus_round_trip (s : string) :
  utf8_decode (unquote_bytes (quote_plus s)) = s.
Proof. now rewrite unquote_bytes_quote_plus, utf8_decode_bytes. Qed.

Lemma quote_plus_inj (a b : string) : quote_plus a = quote_plus b -> a = b.
Proof.
  intros H. rewrite <- (quote_plus_round_trip a), <- (quote_plus_round_trip b).
  now rewrite H.
Qed.

(** X6: two different names never give the same search URL: what
    [urlencode] makes of the name in the URL determines the name. *)
Theorem persons_url_injective (a b : string) :
  a <> b -> persons_url a <> persons_url b.
Proof.
  intros Hne H. apply Hne. unfold persons_url in H.
  apply append_inj_l in H. apply append_inj_l in H. now apply quote_plus_inj.
Qed.

Lemma persons_url_injective_witness :
  persons_url "Jon Olav Vik" <> persons_url "Jon+Olav+Vik" /\
  persons_url "Vik" <> persons_url "vik".
Proof.
  split.
  - apply (persons_url_injective "Jon Olav Vik" "Jon+Olav+Vik"). discriminate.
  - apply (persons_url_injective "Vik" "vik"). discriminate.
Defined.

(** ** The URLs *)

Lemma py_str_Ok_bind {B : Type} (v : pyval) (k : string -> outcome B) (r : B) :
  (s <- py_str v ;; k s) = Ok r -> exists s, py_str v = Ok s /\ k s = Ok r.
Proof.
  destruct (py_str v) as [s | e |]; cbn [bind]; try discriminate.
  intros H. now exists s.
Qed.

Lemma pubs_url_listing (cpid fra til hovedkategori : pyval) (url : string) :
  pubs_url cpid fra til hovedkategori = Ok url ->
  exists s1 s2 s3 s4,
    py_str cpid = Ok s1 /\ py_str fra = Ok s2 /\ py_str til = Ok s3 /\
    py_str hovedkategori = Ok s4 /\ url = listing_url s1 s2 s3 s4.
Proof.
  unfold pubs_url, urlencode. cbn [urlencode_pairs].
  destruct (py_str cpid) as [s1 | |]; try discriminate.
  destruct (py_str fra) as [s2 | |]; try discriminate.
  destruct (py_str til) as [s3 | |]; try discriminate.
  destruct (py_str hovedkategori) as [s4 | |]; try discriminate.
  cbn. intros [= <-]. exists s1, s2, s3, s4. repeat split.
Qed.

(** X7: whatever the values, the listing URL has one question mark, five
    equals signs and four ampersands, and the search URL one question
    mark, one equals sign and no ampersand: a name or a bound cannot add a
    parameter of its own.  Neither URL holds a space or a hash. *)
Theorem url_parameters :
  (forall cpid fra til hovedkategori url,
     pubs_url cpid fra til hovedkategori = Ok url ->
     count_char "?" url = 1%nat /\ count_char "=" url = 5%nat /\
     count_char "&" url = 4%nat /\
     count_char " " url = O /\ count_char "#" url = O) /\
  (forall name,
     count_char "?" (persons_url name) = 1%nat /\
     count_char "=" (persons_url name) = 1%nat /\
     count_char "&" (persons_url name) = O /\
     count_char " " (persons_url name) = O /\
     count_char "#" (persons_url name) = O).
Proof.
  split.
  - intros cpid fra til hovedkategori url H.
    destruct (pubs_url_listing _ _ _ _ _ H) as (s1 & s2 & s3 & s4 & _ & _ & _ & _ & ->).
    unfold listing_url.
    repeat split; rewrite !count_char_append, !quote_plus_count by reflexivity;
      reflexivity.
  - intros name. unfold persons_url.
    repeat split; rewrite !count_char_append, !quote_plus_count by reflexivity;
      reflexivity.
Qed.

Lemma url_parameters_witness :
  count_char "?" pubs_url_None = 1%nat /\ count_char "=" pubs_url_None = 5%nat /\
  count_char "&" pubs_url_None = 4%nat /\
  count_char " " pubs_url_None = O /\ count_char "#" pubs_url_None = O.
Proof.
  exact (proj1 url_parameters PNone fra_default til_default hovedkategori_default
           pubs_url_None eq_refl).
Defined.

(** ** Authors that cannot be rendered *)

Lemma author_name_raise (k : pyval) (e : exn) :
  py_getitem k "fornavn" = Raise e \/
  (exists given, py_getitem k "fornavn" = Ok (PStr given) /\
                 py_getitem k "etternavn" = Raise e) ->
  author_name k = Raise e.
Proof.
  unfold author_name. intros [H | (given & Hg & H)].
  - now rewrite H.
  - now rewrite Hg, H.
Qed.

Lemma authors_loop_raise (pre post : list pyval) (names : list (string * string))
    (k : pyval) (e : exn) :
  Forall2 is_author pre names ->
  author_name k = Raise e ->
  forall authors, authors_loop (pre ++ k :: post)%list authors = Raise e.
Proof.
  intros Hpre Hk. induction Hpre as [| x a pre names Hx _ IH]; intros authors.
  - cbn [app authors_loop]. now rewrite Hk.
  - cbn [app authors_loop]. rewrite (author_name_render x a Hx). cbn [bind].
    apply IH.
Qed.

(** X8: in a list of authors the first entry without a given name or
    without a surname ends the record with its exception ([KeyError] for a
    missing key), and it does so before the categories are looked at: also
    a record that would give no citation aborts the run. *)
Theorem bad_author_aborts_record
    (i : pyval) (pre post : list pyval) (names : list (string * string))
    (k : pyval) (e : exn) :
  py_path i ["fellesdata"; "person"] = Ok (PList (pre ++ k :: post)%list) ->
  Forall2 is_author pre names ->
  py_getitem k "fornavn" = Raise e \/
  (exists given, py_getitem k "fornavn" = Ok (PStr given) /\
                 py_getitem k "etternavn" = Raise e) ->
  authors_of i = Raise e /\
  (forall html_codes_all, format_record i html_codes_all = Raise e) /\
  (forall before after html_codes_all html_codes_all',
     format_loop before html_codes_all = Ok html_codes_all' ->
     format_loop (before ++ i :: after)%list html_codes_all = Raise e).
Proof.
  intros Hp Hpre Hk.
  assert (Ha : authors_of i = Raise e).
  { unfold authors_of. rewrite Hp. cbn [bind].
    now rewrite (authors_loop_raise pre post names k e Hpre (author_name_raise k e Hk)). }
  assert (Hr : forall acc, format_record i acc = Raise e).
  { intros acc. unfold format_record. now rewrite Ha. }
  split; [exact Ha | split; [exact Hr |]].
  intros before after acc acc' Hb. rewrite format_loop_app, Hb. cbn [bind format_loop].
  now rewrite Hr.
Qed.

Lemma bad_author_aborts_record_witness :
  authors_of rec_bad_author = Raise KeyError /\
  format_loop [rec_2014; rec_bad_author; rec_no_volum] [] = Raise KeyError.
Proof.
  pose proof (bad_author_aborts_record rec_bad_author [person "Vik" "Jon Olav"] []
                [("Vik", "Jon Olav")] (PDict [("etternavn", PStr "Omholt")]) KeyError
                eq_refl) as H.
  assert (H1 : Forall2 is_author [person "Vik" "Jon Olav"] [("Vik", "Jon Olav")])
    by (repeat constructor).
  specialize (H H1 (or_introl eq_refl)).
  split; [exact (proj1 H) |].
  exact (proj2 (proj2 H) [rec_2014] [rec_no_volum] [] _ eq_refl).
Defined.

(** ** Fields that are required or of the wrong type *)

Lemma article_dict (i x : pyval) :
  py_path i (article ++ ["tidsskrift"; "navn"])%list = Ok x ->
  exists kd d,
    py_getitem i "kategoridata" = Ok (PDict kd) /\
    assoc "tidsskriftsartikkel" kd = Some (PDict d) /\
    forall key,
      py_path i (article ++ [key])%list =
      match assoc key d with Some v => Ok v | None => Raise KeyError end.
Proof.
  intros H. apply py_path_cons_Ok in H as (kdv & Hkd & H).
  apply py_path_cons_Ok in H as (ja & Hja & H).
  apply py_path_cons_Ok in H as (tj & Htj & _).
  apply py_getitem_Ok in Hja as (kd & -> & Hja).
  apply py_getitem_Ok in Htj as (d & -> & _).
  exists kd, d. split; [exact Hkd | split; [exact Hja |]].
  intros key. cbn [article app py_path]. rewrite Hkd. cbn [bind py_getitem].
  rewrite Hja. cbn [bind py_getitem py_path]. destruct (assoc key d); reflexivity.
Qed.

(** X9: the name of the journal is required like title and year: a
    journal article without [tidsskrift], or whose [tidsskrift] has no
    [navn], ends the loop with [KeyError]; the [try] blocks of the optional
    fields come after it. *)
Theorem journal_required
    (i ja : pyval) (kd : list (string * pyval)) (authors : string)
    (tittel year : pyval) (e : exn) (before after : list pyval)
    (html_codes_all html_codes_all' : list string) :
  authors_of i = Ok authors ->
  py_path i ["fellesdata"; "tittel"] = Ok tittel ->
  py_path i ["fellesdata"; "ar"] = Ok year ->
  py_getitem i "kategoridata" = Ok (PDict kd) ->
  assoc "tidsskriftsartikkel" kd = Some ja ->
  py_path ja ["tidsskrift"; "navn"] = Raise e ->
  format_loop before html_codes_all = Ok html_codes_all' ->
  format_loop (before ++ i :: after)%list html_codes_all = Raise e.
Proof.
  intros Ha Ht Hy Hkd Hja Hnavn Hb.
  rewrite format_loop_app, Hb. cbn [bind format_loop].
  rewrite (format_record_article i authors kd _ Ha Hkd), Hja.
  assert (Hj : py_path i (article ++ ["tidsskrift"; "navn"])%list = Raise e).
  { cbn [article app]. change (py_path i ("kategoridata" :: "tidsskriftsartikkel" :: ["tidsskrift"; "navn"]))
      with (x <- py_getitem i "kategoridata" ;;
            y <- py_getitem x "tidsskriftsartikkel" ;; py_path y ["tidsskrift"; "navn"]).
    rewrite Hkd. cbn [bind py_getitem]. rewrite Hja. exact Hnavn. }
  unfold HTML_string. rewrite Ht, Hy, Hj. reflexivity.
Qed.

Lemma journal_required_witness :
  format_loop [rec_2014; rec_no_journal] [] = Raise KeyError.
Proof.
  exact (journal_required rec_no_journal _ _ "Vik JO" _ _ KeyError [rec_2014] [] [] _
           eq_refl eq_refl eq_refl eq_refl eq_refl eq_refl eq_refl).
Defined.

(** X10: the [try] blocks catch a missing key and nothing else: a volume
    or a DOI that is present but not a string (a JSON number, say) ends the
    record with [TypeError]. *)
Theorem non_string_optional_field
    (i : pyval) (authors journal : string) (tittel year v : pyval)
    (html_codes_all : list string) :
  authors_of i = Ok authors ->
  py_path i ["fellesdata"; "tittel"] = Ok tittel ->
  py_path i ["fellesdata"; "ar"] = Ok year ->
  py_path i (article ++ ["tidsskrift"; "navn"])%list = Ok (PStr journal) ->
  as_str v = None ->
  (py_path i (article ++ ["volum"])%list = Ok v ->
   format_record i html_codes_all = Raise TypeError) /\
  (forall volum,
     article_field i "volum" volum ->
     py_path i (article ++ ["doi"])%list = Ok v ->
     format_record i html_codes_all = Raise TypeError).
Proof.
  intros Ha Ht Hy Hj Hv.
  destruct (article_dict i _ Hj) as (kd & d & Hkd & Hja & Hkey).
  rewrite (format_record_article i authors kd _ Ha Hkd), Hja.
  assert (Hart : exists a,
             except_KeyError (py_path i (article ++ ["artikkelnr"])%list) (PStr "") = Ok a).
  { rewrite Hkey. destruct (assoc "artikkelnr" d); eexists; reflexivity. }
  destruct Hart as (a & Hart).
  assert (Hadd : forall s, py_str_add s v = Raise TypeError).
  { intros s. destruct v; try reflexivity. discriminate. }
  split.
  - intros Hvol. unfold HTML_string. rewrite Ht, Hy, Hj. cbn [bind py_str_add].
    rewrite Hart, Hvol. cbn [bind]. rewrite Hadd. reflexivity.
  - intros volum Hvol Hdoi. unfold article_field in Hvol.
    unfold HTML_string. rewrite Ht, Hy, Hj. cbn [bind py_str_add].
    rewrite Hart, Hvol, Hdoi. cbn [bind]. rewrite Hadd.
    destruct volum; reflexivity.
Qed.

Lemma non_string_optional_field_witness :
  format_record rec_volum_53 [] = Raise TypeError.
Proof.
  exact (proj1 (non_string_optional_field rec_volum_53 "Vik JO" "J" _ _ (PInt 53) []
                  eq_refl eq_refl eq_refl eq_refl eq_refl) eq_refl).
Defined.

(** X11: a year or a title that is present but not a string passes every
    lookup and ends the record with [TypeError] when the citation is put
    together. *)
Theorem non_string_year_or_title
    (i : pyval) (authors journal : string) (tittel year : pyval)
    (volum articlenr doi : option string) (html_codes_all : list string) :
  authors_of i = Ok authors ->
  py_path i ["fellesdata"; "tittel"] = Ok tittel ->
  py_path i ["fellesdata"; "ar"] = Ok year ->
  py_path i (article ++ ["tidsskrift"; "navn"])%list = Ok (PStr journal) ->
  article_field i "volum" volum ->
  article_field i "artikkelnr" articlenr ->
  article_field i "doi" doi ->
  as_str year = None \/ as_str tittel = None ->
  format_record i html_codes_all = Raise TypeError.
Proof.
  unfold article_field. intros Ha Ht Hy Hj Hv Hart Hd Hbad.
  destruct (article_path i _ _ Hj) as (kd & ja & Hkd & Hja).
  rewrite (format_record_article i authors kd _ Ha Hkd), Hja.
  unfold HTML_string. rewrite Ht, Hy, Hj, Hv, Hart, Hd.
  destruct volum, articlenr, doi; cbn;
    (destruct year; cbn; try reflexivity;
     destruct tittel; cbn; try reflexivity;
     destruct Hbad; discriminate).
Qed.

Lemma non_string_year_or_title_witness :
  format_record rec_year_int [] = Raise TypeError.
Proof.
  refine (non_string_year_or_title rec_year_int "Vik JO" "J" _ _ None None None []
            eq_refl eq_refl eq_refl eq_refl eq_refl eq_refl eq_refl _).
  left. reflexivity.
Defined.

(** ** The loop as a whole *)

Lemma format_record_cases (i : pyval) (cs : list string) :
  format_record i [] = Ok cs ->
  cs = [] \/ exists authors h, HTML_string i authors = Ok h /\ cs = [h].
Proof.
  unfold format_record.
  destruct (authors_of i) as [authors | e |]; try discriminate. cbn [bind].
  destruct (py_getitem i "kategoridata") as [kd | e |]; try discriminate. cbn [bind].
  destruct kd as [| b | n | s | l | d]; try discriminate.
  cbn [py_items bind]. rewrite categories_loop_dict.
  destruct (assoc "tidsskriftsartikkel" d).
  - destruct (HTML_string i authors) as [h | e |] eqn:E; try discriminate.
    intros [= <-]. right. now exists authors, h.
  - intros [= <-]. now left.
Qed.

Lemma format_loop_concat (records : list pyval) (citations : list (list string)) :
  Forall2 (fun i cs => format_record i [] = Ok cs) records citations ->
  forall acc, format_loop records acc = Ok (acc ++ List.concat citations)%list.
Proof.
  induction 1 as [| i cs records citations Hi _ IH]; intros acc.
  - cbn. now rewrite app_nil_r.
  - cbn [format_loop List.concat]. rewrite format_record_acc, Hi. cbn [bind].
    rewrite IH. now rewrite app_assoc.
Qed.

Lemma py_str_add_Ok (s : string) (v : pyval) (r : string) :
  py_str_add s v = Ok r -> exists t, v = PStr t /\ r = s ++ t.
Proof.
  destruct v; try discriminate. intros [= <-]. now eexists.
Qed.

Lemma HTML_string_paragraph (i : pyval) (authors h : string) :
  HTML_string i authors = Ok h -> exists body, h = "<p> " ++ body ++ "</p>".
Proof.
  unfold HTML_string.
  destruct (py_path i ["fellesdata"; "tittel"]) as [tittel | |]; try discriminate.
  destruct (py_path i ["fellesdata"; "ar"]) as [year | |]; try discriminate.
  destruct (py_path i (article ++ ["tidsskrift"; "navn"])%list) as [navn | |];
    try discriminate.
  cbn [bind].
  destruct (py_str_add "<em>" navn) as [journal0 | |]; try discriminate. cbn [bind].
  destruct (except_KeyError (py_path i (article ++ ["artikkelnr"])%list) (PStr ""))
    as [articlenr | |]; try discriminate.
  cbn [bind].
  match goal with
  | |- (_ <- ?m ;; _) = _ -> _ => destruct m as [volum | |]; try discriminate
  end.
  cbn [bind].
  match goal with
  | |- (_ <- ?m ;; _) = _ -> _ => destruct m as [DOI | |]; try discriminate
  end.
  cbn [bind].
  destruct (py_str_add ("<p> " ++ authors ++ " (") year) as [s1 | |] eqn:E1;
    try discriminate.
  cbn [bind].
  destruct (py_str_add (s1 ++ "). ") tittel) as [s2 | |] eqn:E2; try discriminate.
  cbn [bind].
  destruct (py_str_add (s2 ++ " " ++ (journal0 ++ "</em>") ++ " " ++ volum ++ " ")
                       articlenr) as [s3 | |] eqn:E3; try discriminate.
  cbn [bind]. intros [= <-].
  apply py_str_add_Ok in E1 as (y & _ & ->).
  apply py_str_add_Ok in E2 as (t & _ & ->).
  apply py_str_add_Ok in E3 as (a & _ & ->).
  exists (authors ++ " (" ++ y ++ "). " ++ t ++ " " ++ (journal0 ++ "</em>") ++ " "
          ++ volum ++ " " ++ a ++ " " ++ DOI).
  rewrite !append_assoc. reflexivity.
Qed.

(** X12: a record gives at most one citation, and one that begins with
    the paragraph tag and ends with its closing tag. *)
Theorem one_citation_per_record (i : pyval) (cs : list string) :
  format_record i [] = Ok cs ->
  (List.length cs <= 1)%nat /\
  forall h, In h cs ->
    exists body, h = "<p> " ++ body ++ "</p>".
Proof.
  intros H. destruct (format_record_cases i cs H) as [-> | (authors & h & Hh & ->)].
  - split; [cbn; lia | intros h []].
  - split; [cbn; lia |]. intros h' [<- | []].
    now apply (HTML_string_paragraph i authors).
Qed.

Lemma one_citation_per_record_witness :
  (List.length ["<p> Gjuvsland AB (2010). T <em>J</em>  e9379 http://dx.doi.org/10.1/x</p>"] <= 1)%nat /\
  forall h,
    In h ["<p> Gjuvsland AB (2010). T <em>J</em>  e9379 http://dx.doi.org/10.1/x</p>"] ->
    exists body, h = "<p> " ++ body ++ "</p>".
Proof.
  exact (one_citation_per_record rec_no_volum _ eq_refl).
Defined.

(** X13: when every record can be formatted, the citations of the loop
    are those gathered before it followed by the citations of the records
    in the order of the list; for the main block this is the order of the
    sort. *)
Theorem citations_in_sorted_order
    (data : pyval) (records : list pyval) (citations : list (list string)) :
  py_getitem data "forskningsresultat" = Ok (PList records) ->
  Forall has_str_year records ->
  Forall2 (fun i cs => format_record i [] = Ok cs)
          (sort_by String.ltb year_str records) citations ->
  html_codes_of data = Ok (List.concat citations) /\
  forall html_codes_all,
    format_loop (sort_by String.ltb year_str records) html_codes_all =
    Ok (html_codes_all ++ List.concat citations)%list.
Proof.
  intros Hdata Hyears Hc. split.
  - unfold html_codes_of. rewrite (data_sort_strings data records Hdata Hyears).
    cbn [bind]. now rewrite (format_loop_concat _ _ Hc).
  - intros acc. now apply format_loop_concat.
Qed.

Lemma citations_in_sorted_order_witness :
  html_codes_of (results [rec_no_volum; rec_foredrag; rec_2014]) =
  Ok ["<p> Nordb O, Vik JO (2014). T <em>J</em> <strong>(53)</strong>  http://dx.doi.org/10.1/x</p>";
      "<p> Gjuvsland AB (2010). T <em>J</em>  e9379 http://dx.doi.org/10.1/x</p>"].
Proof.
  refine (proj1 (citations_in_sorted_order
                   (results [rec_no_volum; rec_foredrag; rec_2014])
                   [rec_no_volum; rec_foredrag; rec_2014]
                   [[_]; []; [_]] eq_refl _ _)).
  - repeat constructor; eexists; reflexivity.
  - repeat constructor.
Defined.

(** X14: a [person] field that is neither a list nor an object (a string,
    a number, [null]) is no error: the record is cited without authors. *)
Theorem scalar_person_citation
    (i p : pyval) (year tittel journal : string)
    (volum articlenr doi : option string) (html_codes_all : list string) :
  py_path i ["fellesdata"; "person"] = Ok p ->
  (forall l, p <> PList l) -> (forall d, p <> PDict d) ->
  py_path i ["fellesdata"; "tittel"] = Ok (PStr tittel) ->
  py_path i ["fellesdata"; "ar"] = Ok (PStr year) ->
  py_path i (article ++ ["tidsskrift"; "navn"])%list = Ok (PStr journal) ->
  article_field i "volum" volum ->
  article_field i "artikkelnr" articlenr ->
  article_field i "doi" doi ->
  authors_of i = Ok "" /\
  format_record i html_codes_all =
  Ok (html_codes_all ++ [citation_text "" year tittel journal volum articlenr doi])%list.
Proof.
  intros Hp Hl Hd Ht Hy Hj Hv Ha Hdoi.
  assert (H : authors_of i = Ok "").
  { unfold authors_of. rewrite Hp. cbn [bind].
    destruct p as [| b | n | s | l | d]; try reflexivity.
    - now destruct (Hl l).
    - now destruct (Hd d). }
  split; [exact H |]. now apply format_record_fields.
Qed.

Lemma scalar_person_citation_witness :
  format_record rec_person_null [] = Ok ["<p>  (2014). T <em>J</em>   </p>"].
Proof.
  refine (proj2 (scalar_person_citation rec_person_null PNone "2014" "T" "J"
                   None None None [] eq_refl _ _ eq_refl eq_refl eq_refl
                   eq_refl eq_refl eq_refl)); intros x; discriminate.
Defined.

(** ** The sort: failures, idempotence, years that are numbers *)

Lemma map_outcome_raise {A B : Type} (f : A -> outcome B)
    (pre post : list A) (x : A) (e : exn) :
  Forall (fun a => exists b, f a = Ok b) pre ->
  f x = Raise e ->
  map_outcome f (pre ++ x :: post)%list = Raise e.
Proof.
  intros Hpre Hx. induction Hpre as [| a pre [b Hb] _ IH].
  - cbn. now rewrite Hx.
  - cbn [app map_outcome]. rewrite Hb. cbn [bind]. now rewrite IH.
Qed.

(** X15: the years are read from all records before anything is sorted or
    formatted: the first record without a year (or whose common data is
    missing) ends the run with its exception, also when that record would
    have given no citation and whatever records follow. *)
Theorem missing_year_aborts_sort
    (data : pyval) (pre post : list pyval) (r : pyval) (e : exn) :
  py_getitem data "forskningsresultat" = Ok (PList (pre ++ r :: post)%list) ->
  Forall (fun k => exists y, year_of k = Ok y) pre ->
  year_of r = Raise e ->
  data_sort data = Raise e /\ html_codes_of data = Raise e.
Proof.
  intros Hdata Hpre Hr.
  assert (H : data_sort data = Raise e).
  { unfold data_sort. rewrite Hdata. cbn [bind py_iter]. fold year_of.
    now rewrite (map_outcome_raise year_of pre post r e Hpre Hr). }
  split; [exact H |]. unfold html_codes_of. now rewrite H.
Qed.

Lemma missing_year_aborts_sort_witness :
  data_sort (results [rec_2014; rec_no_year; rec_no_volum]) = Raise KeyError /\
  html_codes_of (results [rec_2014; rec_no_year; rec_no_volum]) = Raise KeyError.
Proof.
  refine (missing_year_aborts_sort (results [rec_2014; rec_no_year; rec_no_volum])
            [rec_2014] [rec_no_volum] rec_no_year KeyError eq_refl _ eq_refl).
  repeat constructor. eexists. reflexivity.
Defined.

Lemma sorted_desc_id {K : Type} (ltb : K -> K -> bool) (l : list (K * pyval)) :
  StronglySorted (not_below ltb) l -> sorted_desc ltb l = l.
Proof.
  induction 1 as [| x l _ IH Hx]; [reflexivity |].
  cbn [sorted_desc fold_right]. fold (sorted_desc ltb l). rewrite IH.
  destruct Hx as [| y l Hy _]; [reflexivity |].
  cbn [insert_desc]. unfold not_below in Hy. now rewrite Hy.
Qed.

Lemma sort_by_idempotent {K : Type} (ltb : K -> K -> bool) (key : pyval -> K)
    (l : list pyval) :
  (forall a b, ltb a b = true -> ltb b a = false) ->
  (forall a b c, ltb a b = false -> ltb b c = false -> ltb a c = false) ->
  sort_by ltb key (sort_by ltb key l) = sort_by ltb key l.
Proof.
  intros Hasym Htrans. unfold sort_by at 1. rewrite decorate_sort_by.
  rewrite sorted_desc_id; [reflexivity |]. now apply sorted_desc_sorted.
Qed.

Lemma Forall_perm {A : Type} (P : A -> Prop) (l l' : list A) :
  Permutation l l' -> Forall P l -> Forall P l'.
Proof.
  intros Hp H. rewrite Forall_forall in *. intros x Hx. apply H.
  now apply (Permutation_in _ (Permutation_sym Hp)).
Qed.

(** X16: sorting is idempotent: the sorted records, handed to the sort
    again, come back as they are. *)
Theorem data_sort_idempotent (data : pyval) (records sorted : list pyval) :
  py_getitem data "forskningsresultat" = Ok (PList records) ->
  Forall has_str_year records ->
  data_sort data = Ok sorted ->
  data_sort (results sorted) = Ok sorted.
Proof.
  intros Hdata Hyears Hs.
  rewrite (data_sort_strings data records Hdata Hyears) in Hs. injection Hs as <-.
  rewrite (data_sort_strings (results (sort_by String.ltb year_str records))
             (sort_by String.ltb year_str records) eq_refl).
  - f_equal. apply sort_by_idempotent; [apply ltb_asym | apply not_ltb_trans].
  - eapply Forall_perm; [apply sort_by_perm | exact Hyears].
Qed.

Lemma data_sort_idempotent_witness :
  data_sort (results [rec_2014; rec_no_volum]) = Ok [rec_2014; rec_no_volum].
Proof.
  refine (data_sort_idempotent (results [rec_no_volum; rec_2014])
            [rec_no_volum; rec_2014] [rec_2014; rec_no_volum] eq_refl _ eq_refl).
  repeat constructor; eexists; reflexivity.
Defined.

Lemma year_int_of (k : pyval) (n : Z) : year_of k = Ok (PInt n) -> year_int k = n.
Proof. unfold year_int. now intros ->. Qed.

Lemma map_outcome_year_key (records : list pyval) :
  Forall (fun k => exists v, year_of k = Ok v) records ->
  map_outcome year_of records = Ok (map year_key records).
Proof.
  induction 1 as [| k records [v Hv] _ IH]; [reflexivity |].
  cbn [map_outcome map]. unfold year_key at 1. rewrite IH, Hv. reflexivity.
Qed.

Lemma all_some_None {A B : Type} (f : A -> option B) (l : list A) :
  Exists (fun x => f x = None) l -> all_some f l = None.
Proof.
  induction 1 as [x l Hx | x l _ IH]; cbn [all_some].
  - now rewrite Hx.
  - rewrite IH. now destruct (f x).
Qed.

Lemma all_some_int_years (records : list pyval) :
  Forall has_int_year records ->
  all_some as_num (map year_key records) = Some (map year_int records).
Proof.
  induction 1 as [| k records [n Hn] _ IH]; [reflexivity |].
  cbn [all_some map]. rewrite IH, (year_int_of k n Hn).
  unfold year_key. now rewrite Hn.
Qed.

(** On records whose years are JSON integers the sort is by number. *)
Lemma data_sort_numbers (data : pyval) (records : list pyval) :
  py_getitem data "forskningsresultat" = Ok (PList records) ->
  Forall has_int_year records ->
  data_sort data = Ok (sort_by Z.ltb year_int records).
Proof.
  intros Hdata Hyears. unfold data_sort. rewrite Hdata. cbn [bind py_iter].
  fold year_of. rewrite map_outcome_year_key.
  2: { eapply Forall_impl; [| exact Hyears]. intros k [n Hn]. now exists (PInt n). }
  cbn [bind]. unfold py_sorted_reverse.
  destruct (List.length records <? 2)%nat eqn:E.
  - apply Nat.ltb_lt in E. now rewrite sort_by_short.
  - destruct records as [| k records]; [discriminate |].
    rewrite (all_some_None as_str).
    2: { cbn [map]. apply Exists_cons_hd. apply Forall_inv in Hyears as [n Hn].
         unfold year_key. now rewrite Hn. }
    rewrite (all_some_int_years _ Hyears).
    now rewrite combine_decorate.
Qed.

(** X17: when the years are JSON integers instead of strings the sort is
    the stable descending sort by number: a permutation, no year before a
    greater one, records of one year in their original order. *)
Theorem data_sort_int_years (data : pyval) (records : list pyval) :
  py_getitem data "forskningsresultat" = Ok (PList records) ->
  Forall has_int_year records ->
  exists sorted,
    data_sort data = Ok sorted /\
    Permutation records sorted /\
    StronglySorted (fun a b => year_int b <= year_int a) sorted /\
    (forall y, filter (fun k => Z.eqb y (year_int k)) sorted =
               filter (fun k => Z.eqb y (year_int k)) records).
Proof.
  intros Hdata Hyears. exists (sort_by Z.ltb year_int records).
  split; [now apply data_sort_numbers | split; [apply sort_by_perm | split]].
  - eapply StronglySorted_weaken; [| apply sort_by_sorted].
    + intros a b H. apply Z.ltb_ge in H. exact H.
    + intros a b H. apply Z.ltb_lt in H. apply Z.ltb_ge. lia.
    + intros a b c H1 H2. apply Z.ltb_ge in H1, H2. apply Z.ltb_ge. lia.
  - intros y. apply (sort_by_stable Z.ltb year_int (Z.eqb y)).
    intros a b Ha Hb. apply Z.eqb_eq in Ha, Hb. subst. apply Z.ltb_irrefl.
Qed.

Lemma data_sort_int_years_witness :
  exists sorted,
    data_sort (results [rec_int 999 "a"; rec_int 1000 "b"; rec_int 999 "c"]) = Ok sorted /\
    Permutation [rec_int 999 "a"; rec_int 1000 "b"; rec_int 999 "c"] sorted /\
    StronglySorted (fun a b => year_int b <= year_int a) sorted /\
    (forall y, filter (fun k => Z.eqb y (year_int k)) sorted =
               filter (fun k => Z.eqb y (year_int k))
                      [rec_int 999 "a"; rec_int 1000 "b"; rec_int 999 "c"]).
Proof.
  apply (data_sort_int_years
           (results [rec_int 999 "a"; rec_int 1000 "b"; rec_int 999 "c"]) _ eq_refl).
  repeat constructor; eexists; reflexivity.
Defined.

(** X18: years of both kinds cannot be sorted together: as soon as one
    record has a string for its year and another an integer, the sort ends
    in [TypeError] and nothing is formatted. *)
Theorem mixed_years_TypeError (data : pyval) (records : list pyval) :
  py_getitem data "forskningsresultat" = Ok (PList records) ->
  Forall (fun k => has_str_year k \/ has_int_year k) records ->
  Exists has_str_year records ->
  Exists has_int_year records ->
  data_sort data = Raise TypeError /\ html_codes_of data = Raise TypeError.
Proof.
  intros Hdata Hall Hstr Hint.
  assert (H : data_sort data = Raise TypeError).
  { unfold data_sort. rewrite Hdata. cbn [bind py_iter]. fold year_of.
    rewrite map_outcome_year_key.
    2: { eapply Forall_impl; [| exact Hall].
         intros k [[y Hy] | [n Hn]]; eexists; eassumption. }
    cbn [bind]. unfold py_sorted_reverse.
    assert (L : (List.length records <? 2)%nat = false).
    { apply Nat.ltb_ge. destruct records as [| a [| b l]]; cbn; try lia.
      - inversion Hstr.
      - exfalso. inversion Hstr as [? ? [y Hy] | ? ? Hn]; subst;
          [| inversion Hn].
        inversion Hint as [? ? [n Hn] | ? ? Hn]; subst; [| inversion Hn].
        congruence. }
    rewrite L.
    rewrite (all_some_None as_str).
    2: { apply Exists_exists. apply Exists_exists in Hint as (k & Hin & n & Hn).
         exists (year_key k). split; [now apply in_map |].
         unfold year_key. now rewrite Hn. }
    rewrite (all_some_None as_num).
    2: { apply Exists_exists. apply Exists_exists in Hstr as (k & Hin & y & Hy).
         exists (year_key k). split; [now apply in_map |].
         unfold year_key. now rewrite Hy. }
    replace (existsb is_list (map year_key records)) with false; [reflexivity |].
    symmetry. apply not_true_is_false. intros E.
    apply existsb_exists in E as (v & Hin & Hv).
    apply in_map_iff in Hin as (k & <- & Hin).
    rewrite Forall_forall in Hall. unfold year_key in Hv.
    destruct (Hall k Hin) as [[y Hy] | [n Hn]].
    - rewrite Hy in Hv. discriminate.
    - rewrite Hn in Hv. discriminate. }
  split; [exact H |]. unfold html_codes_of. now rewrite H.
Qed.

Lemma mixed_years_TypeError_witness :
  data_sort (results [rec_2014; rec_year_int]) = Raise TypeError /\
  html_codes_of (results [rec_2014; rec_year_int]) = Raise TypeError.
Proof.
  apply (mixed_years_TypeError (results [rec_2014; rec_year_int]) _ eq_refl).
  - constructor; [left; eexists; reflexivity |].
    constructor; [right; eexists; reflexivity | constructor].
  - apply Exists_cons_hd. eexists. reflexivity.
  - apply Exists_cons_tl, Exists_cons_hd. eexists. reflexivity.
Defined.

(** ** The document and the main block *)

Lemma concat_empty_cons (x : string) (l : list string) :
  String.concat "" (x :: l) = x ++ String.concat "" l.
Proof.
  destruct l as [| y l]; [| reflexivity].
  cbn [String.concat]. now rewrite append_nil_r.
Qed.

Lemma written_all_cons (i : string) (l : list string) :
  written_all (i :: l) = written i ++ written_all l.
Proof. unfold written_all. cbn [map]. apply concat_empty_cons. Qed.

Lemma written_all_app (a b : list string) :
  written_all (a ++ b)%list = written_all a ++ written_all b.
Proof.
  induction a as [| i a IH]; [reflexivity |].
  cbn [app]. now rewrite !written_all_cons, IH, append_assoc.
Qed.

Lemma length_written_all (l : list string) :
  String.length (written_all l) =
  list_sum (map (fun i => (3 + String.length i)%nat) l).
Proof.
  induction l as [| i l IH]; [reflexivity |].
  rewrite written_all_cons, length_append, IH. cbn [map list_sum fold_right].
  unfold written. rewrite !length_append.
  change (String.length tab) with 1%nat. change (String.length nl) with 1%nat.
  fold (list_sum (map (fun i0 => (3 + String.length i0)%nat) l)). lia.
Qed.

(** X19: the document is the opening text, the citations in the order of
    the list, each on a line of its own behind two tabs, and the closing
    text; so a citation that comes earlier in the list stands earlier in
    the file, and every citation adds its length and three characters. *)
Theorem document_order :
  (forall l1 c1 l2 c2 l3,
     document (l1 ++ c1 :: l2 ++ c2 :: l3)%list =
     html_str_start ++ written_all l1 ++ written c1 ++ written_all l2
     ++ written c2 ++ written_all l3 ++ html_str_end) /\
  (forall html_codes_all,
     String.length (document html_codes_all) =
     (String.length html_str_start + String.length html_str_end
      + list_sum (map (fun i => (3 + String.length i)%nat) html_codes_all))%nat).
Proof.
  split.
  - intros l1 c1 l2 c2 l3.
    change (document (l1 ++ c1 :: l2 ++ c2 :: l3)%list)
      with (html_str_start ++ written_all (l1 ++ c1 :: l2 ++ c2 :: l3)%list
            ++ html_str_end).
    rewrite written_all_app, written_all_cons, written_all_app, written_all_cons.
    now rewrite !append_assoc.
  - intros l.
    change (document l) with (html_str_start ++ written_all l ++ html_str_end).
    rewrite !length_append, length_written_all. lia.
Qed.

Lemma main_unfold (net : network) :
  main net =
  match pubs_by (PStr name_of_user) fra_default til_default hovedkategori_default net with
  | (t, Ok data) =>
      (t, match html_codes_of data with
          | Ok html_codes_all => Ok (name_of_user ++ ".html", document html_codes_all)
          | Raise e => Raise e
          | Unmodelled => Unmodelled
          end)
  | (t, Raise e) => (t, Raise e)
  | (t, Unmodelled) => (t, Unmodelled)
  end.
Proof.
  unfold main. unfold io_bind at 1.
  destruct (pubs_by (PStr name_of_user) fra_default til_default hovedkategori_default net)
    as [t [data | e |]]; try reflexivity.
  rewrite io_bind_ret.
  destruct (html_codes_of data); unfold io_ret; now rewrite app_nil_r.
Qed.

(** X20: the main block writes a file only at the end of a complete run:
    two requests were issued, the name search for the fixed author and the
    listing for the identifier it gave, both bodies were JSON, and the
    records were sorted and formatted without an exception.  The name of
    the file is that of the fixed author whatever the registry returned. *)
Theorem main_writes_file (net : network) (t : list string) (f doc : string) :
  main net = (t, Ok (f, doc)) ->
  f = "Jon Olav Vik.html" /\
  exists cpid url data html_codes_all,
    cristin_person_id (PStr name_of_user) net = ([persons_url name_of_user], Ok cpid) /\
    pubs_url cpid fra_default til_default hovedkategori_default = Ok url /\
    t = [persons_url name_of_user; url] /\
    requests_get_json net url = Ok data /\
    html_codes_of data = Ok html_codes_all /\
    doc = document html_codes_all.
Proof.
  intros H. rewrite main_unfold, pubs_by_unfold in H.
  pose proof (cristin_person_id_name name_of_user net eq_refl) as Hc.
  destruct (cristin_person_id (PStr name_of_user) net) as [t0 [cpid | e |]];
    try discriminate.
  injection Hc as -> Hc.
  destruct (pubs_url cpid fra_default til_default hovedkategori_default)
    as [url | e |] eqn:Eurl; try discriminate.
  destruct (requests_get_json net url) as [data | e |] eqn:Edata; try discriminate.
  destruct (html_codes_of data) as [codes | e |] eqn:Ecodes; try discriminate.
  injection H as <- <- <-. split; [reflexivity |].
  exists cpid, url, data, codes. repeat split; assumption.
Qed.

Lemma main_writes_file_witness :
  exists cpid url data html_codes_all,
    cristin_person_id (PStr name_of_user) net_vik =
      ([persons_url name_of_user], Ok cpid) /\
    pubs_url cpid fra_default til_default hovedkategori_default = Ok url /\
    [persons_url "Jon Olav Vik";
     "http://www.cristin.no/ws/hentVarbeiderPerson?lopenr=22311&fra=&til=&hovedkategori=TIDSSKRIFTPUBL&format=json"]
    = [persons_url name_of_user; url] /\
    requests_get_json net_vik url = Ok data /\
    html_codes_of data = Ok html_codes_all /\
    html_str_start ++ tab ++ tab
    ++ "<p> Nordb O, Vik JO (2014). T <em>J</em> <strong>(53)</strong>  http://dx.doi.org/10.1/x</p>"
    ++ nl ++ html_str_end = document html_codes_all.
Proof.
  exact (proj2 (main_writes_file net_vik _ _ _ main_example)).
Defined.

(** X21: with an author that [int] accepts, and whose value [str] renders
    (no more digits than the cap), the fetcher skips the name search: its
    only request is the listing for that integer, with the bounds and the
    category as given, and the body of the reply is the result. *)
Theorem pubs_by_numeric
    (author fra til hovedkategori : pyval) (n : Z) (s1 s2 s3 s4 : string)
    (net : network) :
  py_int author = Ok n ->
  py_str (PInt n) = Ok s1 ->
  py_str fra = Ok s2 -> py_str til = Ok s3 -> py_str hovedkategori = Ok s4 ->
  pubs_by author fra til hovedkategori net =
  ([listing_url s1 s2 s3 s4],
   requests_get_json net (listing_url s1 s2 s3 s4)).
Proof.
  intros Hint H1 H2 H3 H4. rewrite pubs_by_unfold.
  unfold cristin_person_id. rewrite Hint. cbn [io_ret].
  assert (Hurl : pubs_url (PInt n) fra til hovedkategori =
                 Ok (listing_url s1 s2 s3 s4)).
  { unfold pubs_url, urlencode. cbn [urlencode_pairs bind].
    rewrite H1, H2, H3, H4. reflexivity. }
  now rewrite Hurl.
Qed.

Lemma pubs_by_numeric_witness :
  pubs_by (PStr "22311") (PInt 2014) (PInt 2014) hovedkategori_default net_vik =
  (["http://www.cristin.no/ws/hentVarbeiderPerson?lopenr=22311&fra=2014&til=2014&hovedkategori=TIDSSKRIFTPUBL&format=json"],
   Raise ConnectionError).
Proof.
  exact (pubs_by_numeric (PStr "22311") (PInt 2014) (PInt 2014) hovedkategori_default
           22311 "22311" "2014" "2014" "TIDSSKRIFTPUBL" net_vik
           eq_refl eq_refl eq_refl eq_refl eq_refl).
Defined.

(** X22: the main block takes [forskningsresultat] to be a list of
    records.  Without that key (an error object, say) it ends in
    [KeyError]; when the value is a single record, an object and not a
    list, the sort draws the keys of that object and ends in [TypeError];
    [null] and numbers end in [TypeError] too; only an empty object or an
    empty string pass, as no records. *)
Theorem forskningsresultat_not_a_list (data : pyval) :
  (forall e, py_getitem data "forskningsresultat" = Raise e ->
             html_codes_of data = Raise e) /\
  (forall k v d, py_getitem data "forskningsresultat" = Ok (PDict ((k, v) :: d)) ->
                 html_codes_of data = Raise TypeError) /\
  (forall c s, py_getitem data "forskningsresultat" = Ok (PStr (String c s)) ->
               html_codes_of data = Raise TypeError) /\
  (forall v, py_getitem data "forskningsresultat" = Ok v ->
             v = PNone \/ (exists b, v = PBool b) \/ (exists n, v = PInt n) ->
             html_codes_of data = Raise TypeError) /\
  (forall v, py_getitem data "forskningsresultat" = Ok v ->
             v = PDict [] \/ v = PStr "" \/ v = PList [] ->
             html_codes_of data = Ok []).
Proof.
  unfold html_codes_of, data_sort.
  split; [| split; [| split; [| split]]].
  - intros e ->. reflexivity.
  - intros k v d ->. reflexivity.
  - intros c s ->. reflexivity.
  - intros v -> [-> | [[b ->] | [n ->]]]; reflexivity.
  - intros v -> [-> | [-> | ->]]; reflexivity.
Qed.

Lemma forskningsresultat_not_a_list_witness :
  html_codes_of (PDict [("error", PStr "x")]) = Raise KeyError /\
  html_codes_of (PDict [("forskningsresultat", rec_2014)]) = Raise TypeError.
Proof.
  split.
  - exact (proj1 (forskningsresultat_not_a_list (PDict [("error", PStr "x")]))
             KeyError eq_refl).
  - exact (proj1 (proj2 (forskningsresultat_not_a_list
                           (PDict [("forskningsresultat", rec_2014)])))
             _ _ _ eq_refl).
Defined.
